(** * httpcore: the proxy layer and the request clean-up path

    A shallow embedding of [httpcore/_sync/http_proxy.py] (header merging,
    the proxy pool's choice of connection, the forwarding connection and the
    CONNECT tunnel) and of the clean-up methods of
    [httpcore/_async/interfaces.py], with the properties the specification
    states about them.

    Python [bytes] are lists of [byte], Python [str] is [string], [int] is
    [Z], a [dict] with string keys is a [gmap string _], a [set] is a
    [gset].  Objects that the code only passes along (body streams, network
    streams, backends) are represented by their identity. *)

From Stdlib Require Import ZArith List Bool Lia.
From Stdlib Require Import Strings.Byte Strings.Ascii Strings.String.
From Stdlib Require Import Numbers.DecimalString.
From stdpp Require Import base decidable countable gmap strings list.

Local Open Scope Z_scope.

(** ** Bytes *)

Module Bytes.

Definition bytes : Type := list byte.

#[global] Instance byte_eq_dec : EqDecision byte := Byte.byte_eq_dec.

#[global] Program Instance byte_countable : Countable byte :=
  inj_countable Byte.to_N Byte.of_N _.
Next Obligation. intros b. apply Byte.of_to_N. Qed.

(** A bytes literal written as a string: [b"Host"] is [b_ "Host"]. *)
Definition b_ (s : string) : bytes := list_byte_of_string s.

(** [bytes.lower()] on one byte: the ASCII capitals [A]..[Z] (65..90) move
    to [a]..[z]; every other byte, those above 127 included, is kept. *)
Definition byte_lower (c : byte) : byte :=
  let n := Byte.to_N c in
  if ((65 <=? n) && (n <=? 90))%N
  then match Byte.of_N (n + 32) with Some c' => c' | None => c end
  else c.

Definition lower (s : bytes) : bytes := map byte_lower s.

(** [s.decode("ascii")]: fails ([UnicodeDecodeError]) on a byte above 127. *)
Definition is_ascii_byte (c : byte) : bool := (Byte.to_N c <? 128)%N.

Definition decode_ascii (s : bytes) : option string :=
  if forallb is_ascii_byte s then Some (string_of_list_byte s) else None.

(** [s.decode("ascii", errors="ignore")]: bytes above 127 are dropped. *)
Definition decode_ascii_ignore (s : bytes) : string :=
  string_of_list_byte (List.filter is_ascii_byte s).

(** ["%d" % n] for a Python [int]. *)
Definition str_of_int (n : Z) : string := NilZero.string_of_int (Z.to_int n).

(** [b"%d" % n]. *)
Definition bytes_of_int (n : Z) : bytes := list_byte_of_string (str_of_int n).

End Bytes.
Export Bytes.

(** ** Headers and [merge_headers] *)

Definition Header : Type := bytes * bytes.

(** [merge_headers] of http_proxy.py.  [has_override] is the Python [set]
    of the lowercased override names. *)
Definition merge_headers (default_headers override_headers : option (list Header))
  : list Header :=
  let default_headers :=
    match default_headers with None => [] | Some l => l end in
  let override_headers :=
    match override_headers with None => [] | Some l => l end in
  let has_override : gset bytes :=
    list_to_set (map (fun kv : Header => lower (fst kv)) override_headers) in
  let default_headers :=
    filter (fun kv : Header => lower (fst kv) ∉ has_override) default_headers in
  default_headers ++ override_headers.

(** The merge as the specification words it: a default entry is kept when
    its lowercased name is the lowercased name of no override entry; the
    kept defaults come first, in their order, then every override. *)
Definition name_collides (overrides : list Header) (d : Header) : bool :=
  existsb (fun o : Header => bool_decide (lower (fst o) = lower (fst d))) overrides.

Definition or_empty (l : option (list Header)) : list Header :=
  match l with None => [] | Some l => l end.

Definition merge_headers_spec (defaults overrides : option (list Header))
  : list Header :=
  List.filter (fun d => negb (name_collides (or_empty overrides) d)) (or_empty defaults)
  ++ or_empty overrides.


(** ** [base64.b64encode] and [build_auth_header] *)

Module Base64.

Definition alphabet : bytes :=
  b_ "ABCDEFGHIJKLMNOPQRSTUVWXYZabcdefghijklmnopqrstuvwxyz0123456789+/".

(** The character of a 6-bit group. *)
Definition sextet (n : N) : byte := nth (N.to_nat n) alphabet "="%byte.

(** Standard encoding with padding: three bytes give four characters, a
    last group of one or two bytes is padded with [=]. *)
Fixpoint b64encode (s : bytes) : bytes :=
  match s with
  | [] => []
  | [x] =>
      let a := Byte.to_N x in
      [sextet (N.shiftr a 2); sextet (N.shiftl (N.land a 3) 4); "="%byte; "="%byte]
  | [x; y] =>
      let a := Byte.to_N x in
      let b := Byte.to_N y in
      [sextet (N.shiftr a 2);
       sextet (N.lor (N.shiftl (N.land a 3) 4) (N.shiftr b 4));
       sextet (N.shiftl (N.land b 15) 2); "="%byte]
  | x :: y :: z :: rest =>
      let a := Byte.to_N x in
      let b := Byte.to_N y in
      let c := Byte.to_N z in
      sextet (N.shiftr a 2)
      :: sextet (N.lor (N.shiftl (N.land a 3) 4) (N.shiftr b 4))
      :: sextet (N.lor (N.shiftl (N.land b 15) 2) (N.shiftr c 6))
      :: sextet (N.land c 63)
      :: b64encode rest
  end.

End Base64.
Export Base64.

Definition build_auth_header (username password : bytes) : bytes :=
  let userpass := username ++ b_ ":" ++ password in
  b_ "Basic " ++ b64encode userpass.

(** ** The data model: origins, URLs, requests, responses *)

Record Origin := mkOrigin { scheme : bytes; host : bytes; port : Z }.

Record URL := mkURL {
  url_scheme : bytes;
  url_host : bytes;
  url_port : option Z;
  url_target : bytes }.

(** Modelled from the spec: [URL.__bytes__] is declared in httpcore._models,
    which is not among the sources.  The specification calls [bytes(url)] the
    absolute form of the URL ([http://s/x] for scheme [http], host [s],
    target [/x]); the port, when the URL has one, follows the host. *)
Definition URL_bytes (u : URL) : bytes :=
  match url_port u with
  | None => url_scheme u ++ b_ "://" ++ url_host u ++ url_target u
  | Some p =>
      url_scheme u ++ b_ "://" ++ url_host u ++ b_ ":" ++ bytes_of_int p
      ++ url_target u
  end.

(** Values that are only stored and handed on. *)
Variant Seconds := seconds (millis : N).
Variant NetworkBackend := backend (id : nat).
Variant SocketOptions := socket_options (id : nat).
Variant NetworkStream := network_stream (id : nat).

(** An [ssl.SSLContext]: a mutable object, of which the code sets the ALPN
    protocol list. *)
Record SSLContext := mkSSLContext { ctx_id : nat; alpn_protocols : list string }.

Definition set_alpn_protocols (ctx : SSLContext) (protocols : list string)
  : SSLContext :=
  {| ctx_id := ctx_id ctx; alpn_protocols := protocols |}.

(** A request body: the bytes given as content, or a lazy chunk sequence. *)
Variant BodyStream := ByteStream (content : bytes) | IterStream (id : nat).

(** The values an extensions dict holds. *)
Inductive ExtValue :=
| ExtBytes (b : bytes)
| ExtStream (s : NetworkStream)
| ExtTimeouts (t : gmap string (option Seconds))
| ExtOther (id : nat).

Record Request := mkRequest {
  method : bytes;
  url : URL;
  headers : list Header;
  stream : BodyStream;
  extensions : gmap string ExtValue }.

Record Response := mkResponse {
  status : Z;
  response_headers : list Header;
  response_stream : BodyStream;
  response_extensions : gmap string ExtValue }.

(** Modelled from the spec: the constructor [Request(...)] is declared in
    httpcore._models, which is not among the sources.  A request is the
    immutable record of method, url, headers, body source and extensions; the
    constructor stores its arguments, and a request built without content has
    the empty body. *)
Definition Request_new (method : bytes) (url : URL) (headers : list Header)
    (content : option BodyStream) (extensions : gmap string ExtValue) : Request :=
  {| method := method; url := url; headers := headers;
     stream := match content with Some s => s | None => ByteStream [] end;
     extensions := extensions |}.

(** Modelled from the spec: [enforce_headers] and [enforce_bytes] are
    declared in httpcore._models, which is not among the sources.  Header
    names and values are bytes in the specification's data model; on such
    values the checks return their argument, and a missing header list is
    the empty list. *)
Definition enforce_headers (value : option (list Header)) : list Header :=
  match value with None => [] | Some l => l end.

Definition enforce_bytes (value : bytes) : bytes := value.

(** ** Exceptions *)

Variant ExcClass :=
| ProxyError | KeyError | AttributeError | TypeError | UnicodeDecodeError
| NameError | RuntimeError | NotImplementedError
| ConnectError | ConnectTimeout | PoolTimeout | ReadError | CancelledError.

Record Exc := mkExc { exc_class : ExcClass; exc_message : string }.

(** [isinstance(exc, RuntimeError)]: the class itself and its subclass. *)
Definition isinstance_RuntimeError (exc : Exc) : bool :=
  match exc_class exc with
  | RuntimeError | NotImplementedError => true
  | _ => false
  end.

(** The result of a call: a value, or the exception it raised. *)
Inductive Result (A : Type) := Ok (a : A) | Raise (e : Exc).
Arguments Ok {A} a.
Arguments Raise {A} e.

(** ** Connections and the calls made on collaborators *)

(** The connection classes of the sibling modules that http_proxy.py
    instantiates; a value records the arguments of the constructor call. *)
Inductive Connection :=
| HTTPConnection (origin : Origin) (keepalive_expiry : option Seconds)
    (network_backend : option NetworkBackend)
    (socket_options : option SocketOptions)
| HTTP11Connection (origin : Origin) (stream : NetworkStream)
    (keepalive_expiry : option Seconds)
| HTTP2Connection (origin : Origin) (stream : NetworkStream)
    (keepalive_expiry : option Seconds).

(** What a trace sink is told about a traced operation: its keyword
    arguments when it starts, its return value when it completes, the
    exception when it fails. *)
Variant TraceInfo :=
| TraceStarted (ssl_context : SSLContext) (server_hostname : string)
    (timeout : option Seconds)
| TraceComplete (return_value : NetworkStream)
| TraceFailed (exception : Exc).

(** What the collaborators answer: the wrapped connection's
    [handle_request], the stream's [start_tls] and
    [get_extra_info("ssl_object")] (with the object's
    [selected_alpn_protocol()]), [default_ssl_context()], and the call of
    the object a request carries as its [trace] extension. *)
Record World := mkWorld {
  connection_handle_request : Connection -> Request -> Result Response;
  stream_start_tls :
    NetworkStream -> SSLContext -> string -> option Seconds -> Result NetworkStream;
  stream_ssl_object : NetworkStream -> option (option string);
  default_ssl_context : SSLContext;
  trace_sink : ExtValue -> string -> TraceInfo -> Result unit }.

(** The calls a method makes on its collaborators, in order. *)
Variant Event :=
| CallHandleRequest (c : Connection) (r : Request)
| CallClose (c : Connection)
| CallSetAlpnProtocols (ctx : SSLContext) (protocols : list string)
| CallStartTLS (s : NetworkStream) (ssl_context : SSLContext)
    (server_hostname : string) (timeout : option Seconds)
| CallTrace (sink : ExtValue) (name : string) (info : TraceInfo).

(** ** A state and exception monad for methods *)

Module Method.

(** A running method sees its object [self] and appends to the [calls] it
    has made. *)
Record Run (S : Type) := mkRun { self : S; calls : list Event }.
Arguments mkRun {S} self calls.
Arguments self {S} r.
Arguments calls {S} r.

Definition M (S A : Type) : Type := Run S -> Result A * Run S.

Definition ret {S A} (a : A) : M S A := fun r => (Ok a, r).

Definition raise {S A} (e : Exc) : M S A := fun r => (Raise e, r).

Definition bind {S A B} (m : M S A) (k : A -> M S B) : M S B :=
  fun r =>
    match m r with
    | (Ok a, r') => k a r'
    | (Raise e, r') => (Raise e, r')
    end.

Definition get_self {S} : M S S := fun r => (Ok (self r), r).

Definition set_self {S} (s : S) : M S unit :=
  fun r => (Ok tt, mkRun s (calls r)).

Definition emit {S} (e : Event) : M S unit :=
  fun r => (Ok tt, mkRun (self r) (calls r ++ [e])).

Definition lift {S A} (x : Result A) : M S A := fun r => (x, r).

End Method.
Import Method.

Notation "x <- m ;; k" := (bind m (fun x => k))
  (at level 100, m at next level, right associativity).
Notation "m ;;; k" := (bind m (fun _ => k))
  (at level 100, right associativity).

(** Calls on collaborators, recorded as they are made. *)
Definition call_handle_request {S} (w : World) (c : Connection) (r : Request)
  : M S Response :=
  emit (CallHandleRequest c r) ;;; lift (connection_handle_request w c r).

Definition call_close {S} (c : Connection) : M S unit := emit (CallClose c).

Definition call_start_tls {S} (w : World) (s : NetworkStream)
    (ssl_context : SSLContext) (server_hostname : string)
    (timeout : option Seconds) : M S NetworkStream :=
  emit (CallStartTLS s ssl_context server_hostname timeout) ;;;
  lift (stream_start_tls w s ssl_context server_hostname timeout).

(** Modelled from the spec: the context manager [Trace] is declared in
    httpcore._trace, which is not among the sources.  The specification has
    the request extension [trace], a callable sink receiving an event name
    and an info at protocol milestones.  Around the operation [name] the
    sink of the request, when it has one, is called as the operation starts,
    with its keyword arguments, and as it ends, with the return value or
    with the exception; an exception of the sink leaves the block, before
    the operation when the sink raises at the start.  Logging is left
    aside. *)
Definition trace_call {S} (w : World) (request : Request) (name : string)
    (info : TraceInfo) : M S unit :=
  match extensions request !! "trace"%string with
  | None => ret tt
  | Some sink =>
      emit (CallTrace sink name info) ;;; lift (trace_sink w sink name info)
  end.

Definition traced {S} (w : World) (request : Request) (name : string)
    (started : TraceInfo) (body : M S NetworkStream) : M S NetworkStream :=
  trace_call w request name started ;;;
  fun r =>
    match body r with
    | (Ok return_value, r1) =>
        match trace_call w request name (TraceComplete return_value) r1 with
        | (Ok _, r2) => (Ok return_value, r2)
        | (Raise e, r2) => (Raise e, r2)
        end
    | (Raise e, r1) =>
        match trace_call w request name (TraceFailed e) r1 with
        | (Ok _, r2) => (Raise e, r2)
        | (Raise e', r2) => (Raise e', r2)
        end
    end.

(** ** [HTTPProxy] *)

(** Modelled from the spec: the enumeration [ProxyMode] is declared in
    httpcore._models, which is not among the sources.  The specification
    and [create_connection] name the modes [DEFAULT] and [FORWARD]; the
    docstring of [proxy_mode] ("allow HTTP connection be tunnelable and
    HTTPS be forwardable") gives the third, [TUNNEL]. *)
Variant ProxyMode := DEFAULT | FORWARD | TUNNEL.

#[global] Instance ProxyMode_eq_dec : EqDecision ProxyMode.
Proof. solve_decision. Defined.

Module ForwardHTTPConnection.

Record t := mk {
  _connection : Connection;
  _proxy_origin : Origin;
  _proxy_headers : list Header;
  _remote_origin : Origin }.

(** [ForwardHTTPConnection.__init__] *)
Definition __init__ (proxy_origin remote_origin : Origin)
    (proxy_headers : option (list Header))
    (keepalive_expiry : option Seconds)
    (network_backend : option NetworkBackend)
    (socket_options : option SocketOptions) : t :=
  {| _connection :=
       HTTPConnection proxy_origin keepalive_expiry network_backend socket_options;
     _proxy_origin := proxy_origin;
     _proxy_headers := enforce_headers proxy_headers;
     _remote_origin := remote_origin |}.

(** The request that [handle_request] builds for the proxy. *)
Definition proxy_request (self : t) (request : Request) : Request :=
  let headers :=
    merge_headers (Some (_proxy_headers self)) (Some (headers request)) in
  let url :=
    {| url_scheme := scheme (_proxy_origin self);
       url_host := host (_proxy_origin self);
       url_port := Some (port (_proxy_origin self));
       url_target := URL_bytes (url request) |} in
  Request_new (method request) url headers (Some (stream request))
    (extensions request).

(** [ForwardHTTPConnection.handle_request] *)
Definition handle_request (w : World) (request : Request) : M t Response :=
  self <- get_self ;;
  call_handle_request w (_connection self) (proxy_request self request).

End ForwardHTTPConnection.

Module TunnelHTTPConnection.

Record t := mk {
  _connection : Connection;
  _proxy_origin : Origin;
  _remote_origin : Origin;
  _ssl_context : option SSLContext;
  _proxy_headers : list Header;
  _keepalive_expiry : option Seconds;
  _http1 : bool;
  _http2 : bool;
  _connected : bool }.

(** [TunnelHTTPConnection.__init__] *)
Definition __init__ (proxy_origin remote_origin : Origin)
    (ssl_context : option SSLContext)
    (proxy_headers : option (list Header))
    (keepalive_expiry : option Seconds)
    (http1 http2 : bool)
    (network_backend : option NetworkBackend)
    (socket_options : option SocketOptions) : t :=
  {| _connection :=
       HTTPConnection proxy_origin keepalive_expiry network_backend socket_options;
     _proxy_origin := proxy_origin;
     _remote_origin := remote_origin;
     _ssl_context := ssl_context;
     _proxy_headers := enforce_headers proxy_headers;
     _keepalive_expiry := keepalive_expiry;
     _http1 := http1;
     _http2 := http2;
     _connected := false |}.

Definition set_connection (c : Connection) (self : t) : t :=
  {| _connection := c;
     _proxy_origin := _proxy_origin self;
     _remote_origin := _remote_origin self;
     _ssl_context := _ssl_context self;
     _proxy_headers := _proxy_headers self;
     _keepalive_expiry := _keepalive_expiry self;
     _http1 := _http1 self;
     _http2 := _http2 self;
     _connected := _connected self |}.

Definition set_connected (b : bool) (self : t) : t :=
  {| _connection := _connection self;
     _proxy_origin := _proxy_origin self;
     _remote_origin := _remote_origin self;
     _ssl_context := _ssl_context self;
     _proxy_headers := _proxy_headers self;
     _keepalive_expiry := _keepalive_expiry self;
     _http1 := _http1 self;
     _http2 := _http2 self;
     _connected := b |}.

(** The configured context is one shared object: when
    [set_alpn_protocols] changes it, the field sees the change. *)
Definition set_ssl_context (c : option SSLContext) (self : t) : t :=
  {| _connection := _connection self;
     _proxy_origin := _proxy_origin self;
     _remote_origin := _remote_origin self;
     _ssl_context := c;
     _proxy_headers := _proxy_headers self;
     _keepalive_expiry := _keepalive_expiry self;
     _http1 := _http1 self;
     _http2 := _http2 self;
     _connected := _connected self |}.

(** [b"%b:%d" % (host, port)] *)
Definition target (self : t) : bytes :=
  host (_remote_origin self) ++ b_ ":" ++ bytes_of_int (port (_remote_origin self)).

Definition connect_headers (self : t) : list Header :=
  merge_headers (Some [(b_ "Host", target self); (b_ "Accept", b_ "*/*")])
                (Some (_proxy_headers self)).

Definition connect_request (self : t) (request : Request) : Request :=
  let connect_url :=
    {| url_scheme := scheme (_proxy_origin self);
       url_host := host (_proxy_origin self);
       url_port := Some (port (_proxy_origin self));
       url_target := target self |} in
  Request_new (b_ "CONNECT") connect_url (connect_headers self) None
    (extensions request).

(** [request.extensions.get("timeout", {})], then
    [timeouts.get("connect", None)]. *)
Definition connect_timeout (request : Request) : Result (option Seconds) :=
  match extensions request !! "timeout"%string with
  | None => Ok None
  | Some (ExtTimeouts timeouts) =>
      Ok (match timeouts !! "connect"%string with
          | Some v => v
          | None => None
          end)
  | Some _ => Raise (mkExc AttributeError "get")
  end.

(** [connect_response.extensions.get("reason_phrase", b"")], decoded. *)
Definition reason_str (connect_response : Response) : Result string :=
  match response_extensions connect_response !! "reason_phrase"%string with
  | None => Ok (decode_ascii_ignore [])
  | Some (ExtBytes reason_bytes) => Ok (decode_ascii_ignore reason_bytes)
  | Some _ => Raise (mkExc AttributeError "decode")
  end.

(** ["%d %s" % (status, reason_str)] *)
Definition proxy_error_message (status : Z) (reason : string) : string :=
  (str_of_int status ++ " " ++ reason)%string.

(** [connect_response.extensions["network_stream"]]; the codec stores a
    stream there, a value of another kind is outside the interface. *)
Definition response_network_stream (connect_response : Response)
  : Result NetworkStream :=
  match response_extensions connect_response !! "network_stream"%string with
  | None => Raise (mkExc KeyError "network_stream")
  | Some (ExtStream s) => Ok s
  | Some _ => Raise (mkExc TypeError "network_stream")
  end.

(** The protocol list given to [set_alpn_protocols]. *)
Definition offered_alpn_protocols (self : t) : list string :=
  if _http2 self then ["http/1.1"; "h2"]%string else ["http/1.1"]%string.

(** The branch [if self._remote_origin.scheme == b"https"]: the TLS upgrade
    of the tunnelled stream, inside [with Trace("start_tls", logger, request,
    kwargs)]; it gives the upgraded stream and [http2_negotiated]. *)
Definition upgrade_to_tls (w : World) (request : Request) (raw : NetworkStream)
    (timeout : option Seconds) : M t (NetworkStream * bool) :=
  self <- get_self ;;
  let ssl_context :=
    match _ssl_context self with
    | None => default_ssl_context w
    | Some ctx => ctx
    end in
  let alpn_protocols := offered_alpn_protocols self in
  emit (CallSetAlpnProtocols ssl_context alpn_protocols) ;;;
  let ssl_context := set_alpn_protocols ssl_context alpn_protocols in
  set_self (set_ssl_context
              (match _ssl_context self with
               | None => None
               | Some _ => Some ssl_context
               end) self) ;;;
  server_hostname <-
    lift (match decode_ascii (host (_remote_origin self)) with
          | Some s => Ok s
          | None => Raise (mkExc UnicodeDecodeError "ascii")
          end) ;;
  stream <-
    traced w request "start_tls"
      (TraceStarted ssl_context server_hostname timeout)
      (call_start_tls w raw ssl_context server_hostname timeout) ;;
  let ssl_object := stream_ssl_object w stream in
  let http2_negotiated :=
    match ssl_object with
    | Some selected_alpn_protocol =>
        bool_decide (selected_alpn_protocol = Some "h2"%string)
    | None => false
    end in
  ret (stream, http2_negotiated).

(** The branch "Create the HTTP/1.1 or HTTP/2 connection": the object that
    replaces the wrapped connection. *)
Definition new_connection (self : t) (stream : NetworkStream)
    (http2_negotiated : bool) : Connection :=
  if http2_negotiated || (_http2 self && negb (_http1 self))
  then HTTP2Connection (_remote_origin self) stream (_keepalive_expiry self)
  else HTTP11Connection (_remote_origin self) stream (_keepalive_expiry self).

(** The body of [if not self._connected]: the CONNECT handshake. *)
Definition connect (w : World) (request : Request) (timeout : option Seconds)
  : M t unit :=
  self <- get_self ;;
  connect_response <-
    call_handle_request w (_connection self) (connect_request self request) ;;
  if (status connect_response <? 200) || (status connect_response >? 299) then
    reason <- lift (reason_str connect_response) ;;
    let msg := proxy_error_message (status connect_response) reason in
    call_close (_connection self) ;;;
    raise (mkExc ProxyError msg)
  else
    raw <- lift (response_network_stream connect_response) ;;
    upgraded <-
      (if bool_decide (scheme (_remote_origin self) = b_ "https")
       then upgrade_to_tls w request raw timeout
       else ret (raw, false)) ;;
    let '(stream, http2_negotiated) := upgraded in
    self <- get_self ;;
    set_self (set_connection (new_connection self stream http2_negotiated) self) ;;;
    self <- get_self ;;
    set_self (set_connected true self).

(** [TunnelHTTPConnection.handle_request].  The connect lock is taken and
    released around the handshake; one caller at a time is modelled. *)
Definition handle_request (w : World) (request : Request) : M t Response :=
  timeout <- lift (connect_timeout request) ;;
  self <- get_self ;;
  (if negb (_connected self) then connect w request timeout else ret tt) ;;;
  self <- get_self ;;
  call_handle_request w (_connection self) request.

End TunnelHTTPConnection.

(** A connection as the pool sees it. *)
Variant ConnectionInterface :=
| Forward (c : ForwardHTTPConnection.t)
| Tunnel (c : TunnelHTTPConnection.t).

Module HTTPProxy.

(** The attributes of the superclass [ConnectionPool] that http_proxy.py
    reads.  [ConnectionPool.__init__] is in connection_pool.py, which is not
    among the sources; [super().__init__(...)] is represented by the
    attributes it leaves. *)
Record ConnectionPool := mkPool {
  pool_keepalive_expiry : option Seconds;
  pool_network_backend : option NetworkBackend;
  pool_http1 : bool;
  pool_http2 : bool }.

Record t := mk {
  super : ConnectionPool;
  _ssl_context : option SSLContext;
  _proxy_url : URL;
  _proxy_headers : list Header;
  _proxy_mode : ProxyMode }.

(** [HTTPProxy.__init__]; [enforce_url] leaves a [URL] as it is. *)
Definition __init__ (super_init : ConnectionPool) (proxy_url : URL)
    (proxy_auth : option (bytes * bytes))
    (proxy_headers : option (list Header))
    (ssl_context : option SSLContext)
    (proxy_mode : ProxyMode) : t :=
  let self_proxy_headers := enforce_headers proxy_headers in
  let self_proxy_headers :=
    match proxy_auth with
    | Some (user, pass) =>
        let username := enforce_bytes user in
        let password := enforce_bytes pass in
        let authorization := build_auth_header username password in
        [(b_ "Proxy-Authorization", authorization)] ++ self_proxy_headers
    | None => self_proxy_headers
    end in
  {| super := super_init;
     _ssl_context := ssl_context;
     _proxy_url := proxy_url;
     _proxy_headers := self_proxy_headers;
     _proxy_mode := proxy_mode |}.

Section CreateConnection.

(** The property [URL.origin], declared in httpcore._models. *)
Variable URL_origin : URL -> Origin.

(** [HTTPProxy.create_connection] *)
Definition create_connection (self : t) (origin : Origin) : ConnectionInterface :=
  if bool_decide (_proxy_mode self = FORWARD)
     || (bool_decide (_proxy_mode self = DEFAULT)
         && bool_decide (scheme origin = b_ "http"))
  then
    Forward (ForwardHTTPConnection.__init__
               (URL_origin (_proxy_url self))
               origin
               (Some (_proxy_headers self))
               (pool_keepalive_expiry (super self))
               (pool_network_backend (super self))
               None)
  else
    Tunnel (TunnelHTTPConnection.__init__
              (URL_origin (_proxy_url self))
              origin
              (_ssl_context self)
              (Some (_proxy_headers self))
              (pool_keepalive_expiry (super self))
              (pool_http1 (super self))
              (pool_http2 (super self))
              (pool_network_backend (super self))
              None).

End CreateConnection.

End HTTPProxy.

Definition is_forward (c : ConnectionInterface) : bool :=
  match c with Forward _ => true | Tunnel _ => false end.

(** ** The clean-up methods of interfaces.py *)

Module Interfaces.

(** A connection object with the attributes [_cleanup] looks at: the
    attribute [_connection] may be missing, be [None] or hold a
    sub-connection; [_connect_failed] is set by the clean-up. *)
Inductive Connection :=
| connection (id : nat) (_connect_failed : bool) (_connection : SubConnection)
with SubConnection :=
| NoAttribute
| IsNone
| Sub (c : Connection).

Module AsyncConnectionInterface.

(** [AsyncConnectionInterface._cleanup]: the connection after the call and
    the exception returned. *)
Fixpoint _cleanup (self : Connection) (exc : Exc) : Connection * Exc :=
  match self with
  | connection id failed NoAttribute => (self, exc)
  | connection id failed IsNone => (connection id true IsNone, exc)
  | connection id failed (Sub sub) =>
      let '(sub', exc') := _cleanup sub exc in
      (connection id failed (Sub sub'), exc')
  end.

End AsyncConnectionInterface.

(** A request is compared by identity ([status.request is request]); so is
    a status, whose class defines no equality. *)
Record RequestStatus := mkStatus {
  status_id : nat;
  status_request : nat;
  status_connection : option Connection }.

(** What a module-level name of interfaces.py can be bound to. *)
Variant Global :=
| ShieldClass
| ConnectionObject (c : Connection)
| OtherObject.

(** The names bound at module level in interfaces.py as it stands: its
    imports and its two classes.  (The builtins, looked up next, hold
    neither [AsyncShieldCancellation] nor [connection].) *)
Definition interfaces_globals : gmap string Global :=
  list_to_map
    (map (fun name : string => (name, OtherObject))
       ["sys"; "asynccontextmanager"; "AsyncIterator"; "Optional"; "Union";
        "URL"; "Extensions"; "HeaderTypes"; "Origin"; "Request"; "Response";
        "enforce_bytes"; "enforce_headers"; "enforce_url";
        "include_request_headers"; "AsyncRequestInterface";
        "AsyncConnectionInterface"]%string).

(** The pool as [_cleanup] uses it: the queue [_requests], and the calls of
    [response_closed] (a method of the pool, in connection_pool.py) that
    have been made. *)
Record Pool := mkPool {
  _requests : list RequestStatus;
  response_closed_calls : list nat }.

Definition same_status (a b : RequestStatus) : bool :=
  Nat.eqb (status_id a) (status_id b).

(** [status in self._requests] *)
Definition status_in (status : RequestStatus) (l : list RequestStatus) : bool :=
  existsb (same_status status) l.

(** [self._requests.remove(status)]: the first occurrence goes. *)
Fixpoint remove_status (status : RequestStatus) (l : list RequestStatus)
  : list RequestStatus :=
  match l with
  | [] => []
  | x :: rest =>
      if same_status x status then rest else x :: remove_status status rest
  end.

(** Evaluating a global name: [NameError] when nothing binds it. *)
Definition load_global (globals : gmap string Global) (name : string)
  : Result Global :=
  match globals !! name with
  | Some g => Ok g
  | None => Raise (mkExc NameError name)
  end.

Module AsyncRequestInterface.

(** [AsyncRequestInterface._cleanup].  [exc_info] is the exception being
    handled ([sys.exc_info()]), [request] the identity of the request.
    The result is the pool after the call and [Ok tt] for a plain return or
    [Raise e] for the exception that leaves the method. *)
Definition _cleanup (globals : gmap string Global)
    (self : Pool) (request : nat) (exc_info : option Exc)
  : Result unit * Pool :=
  match exc_info with
  | None => (Ok tt, self)
  | Some exc =>
      let s :=
        List.filter (fun status => Nat.eqb (status_request status) request)
                    (_requests self) in
      match last (A:=RequestStatus) s with
      | None => (Raise exc, self)
      | Some status =>
          match load_global globals "AsyncShieldCancellation" with
          | Raise e => (Raise e, self)
          | Ok OtherObject | Ok (ConnectionObject _) =>
              (Raise (mkExc TypeError "AsyncShieldCancellation"), self)
          | Ok ShieldClass =>
              match status_connection status with
              | None =>
                  let self' :=
                    if status_in status (_requests self)
                    then {| _requests := remove_status status (_requests self);
                            response_closed_calls := response_closed_calls self |}
                    else self in
                  (Raise exc, self')
              | Some _ =>
                  let cleaned :=
                    if negb (isinstance_RuntimeError exc) then
                      match load_global globals "connection" with
                      | Raise e => Raise e
                      | Ok (ConnectionObject c) =>
                          Ok (snd (AsyncConnectionInterface._cleanup c exc))
                      | Ok _ => Raise (mkExc AttributeError "_cleanup")
                      end
                    else Ok exc in
                  match cleaned with
                  | Raise e => (Raise e, self)
                  | Ok exc' =>
                      (Raise exc',
                       {| _requests := _requests self;
                          response_closed_calls :=
                            response_closed_calls self ++ [status_id status] |})
                  end
              end
          end
      end
  end.

End AsyncRequestInterface.

End Interfaces.

(** ** Concrete objects for the examples *)

Module Fixtures.

Definition proxy_url : URL := mkURL (b_ "http") (b_ "p") (Some 3128) (b_ "/").
Definition proxy_origin : Origin := mkOrigin (b_ "http") (b_ "p") 3128.
Definition https_origin : Origin := mkOrigin (b_ "https") (b_ "s") 443.
Definition http_origin : Origin := mkOrigin (b_ "http") (b_ "s") 80.

Definition origin_of (u : URL) : Origin :=
  mkOrigin (url_scheme u) (url_host u)
    (match url_port u with Some p => p | None => 80 end).

Definition pool_fields (http1 http2 : bool) : HTTPProxy.ConnectionPool :=
  HTTPProxy.mkPool None None http1 http2.

(** A pool in the FORWARD mode, with basic authentication and one
    caller-supplied header. *)
Definition forward_pool : HTTPProxy.t :=
  HTTPProxy.__init__ (pool_fields true false) proxy_url
    (Some (b_ "user", b_ "pass"))
    (Some [(b_ "X-Via", b_ "test")]) None FORWARD.

(** [GET https://s/] with a [Host] header and no extensions. *)
Definition get_request : Request :=
  Request_new (b_ "GET") (mkURL (b_ "https") (b_ "s") None (b_ "/"))
    [(b_ "Host", b_ "s")] None ∅.

(** [GET http://s/x] *)
Definition get_plain_request : Request :=
  Request_new (b_ "GET") (mkURL (b_ "http") (b_ "s") None (b_ "/x"))
    [(b_ "Host", b_ "s"); (b_ "x-via", b_ "client")] None ∅.

Definition response_with (status : Z) (exts : list (string * ExtValue)) : Response :=
  mkResponse status [] (ByteStream []) (list_to_map exts).

Definition some_context : SSLContext := mkSSLContext 0 [].

(** A proxy that refuses the tunnel. *)
Definition refusing_world : World :=
  {| connection_handle_request := fun _ _ =>
       Ok (response_with 407
             [("reason_phrase"%string,
               ExtBytes (b_ "Proxy Authentication Required"))]);
     stream_start_tls := fun _ _ _ _ => Ok (network_stream 2);
     stream_ssl_object := fun _ => None;
     default_ssl_context := some_context;
     trace_sink := fun _ _ _ => Ok tt |}.

(** A proxy that opens the tunnel on stream 1; the TLS upgrade gives
    stream 2, on which the peer selects [selected]. *)
Definition tunnel_world (selected : option string) : World :=
  {| connection_handle_request := fun c _ =>
       match c with
       | HTTPConnection _ _ _ _ =>
           Ok (response_with 200
                 [("reason_phrase"%string, ExtBytes (b_ "Connection established"));
                  ("network_stream"%string, ExtStream (network_stream 1))])
       | _ => Ok (response_with 204 [])
       end;
     stream_start_tls := fun _ _ _ _ => Ok (network_stream 2);
     stream_ssl_object := fun s =>
       match s with
       | network_stream 2 => Some selected
       | _ => None
       end;
     default_ssl_context := some_context;
     trace_sink := fun _ _ _ => Ok tt |}.

Definition tunnel_to (remote : Origin) (http1 http2 : bool)
    (proxy_headers : option (list Header)) : TunnelHTTPConnection.t :=
  TunnelHTTPConnection.__init__ proxy_origin remote None proxy_headers None
    http1 http2 None None.

Definition forward_to (remote : Origin) : ForwardHTTPConnection.t :=
  ForwardHTTPConnection.__init__ proxy_origin remote
    (Some [(b_ "X-Via", b_ "proxy"); (b_ "Proxy-Authorization", b_ "Basic dXNlcjpwYXNz")])
    None None None.

Definition start {S} (self : S) : Run S := mkRun self [].

(** A failed dial, and a pool whose queue holds the status of request 7:
    bound to a connection that wraps a sub-connection, or not yet bound. *)
Definition connect_error : Exc := mkExc ConnectError "All connection attempts failed".

Definition bound_connection : Interfaces.Connection :=
  Interfaces.connection 1 false
    (Interfaces.Sub (Interfaces.connection 2 false Interfaces.IsNone)).

Definition pool_with_bound_status : Interfaces.Pool :=
  Interfaces.mkPool [Interfaces.mkStatus 10 7 (Some bound_connection)] [].

Definition pool_with_pending_status : Interfaces.Pool :=
  Interfaces.mkPool
    [Interfaces.mkStatus 9 6 None; Interfaces.mkStatus 10 7 None] [].

(** The module namespace if the shield class were imported as well. *)
Definition globals_with_shield : gmap string Interfaces.Global :=
  <["AsyncShieldCancellation"%string := Interfaces.ShieldClass]>
    Interfaces.interfaces_globals.

End Fixtures.

(** ** Auxiliary definitions for the statements *)

(** Some entry of [l] has the lowercased name [name]. *)
Definition has_name (name : bytes) (l : list Header) : bool :=
  existsb (fun h : Header => bool_decide (lower (fst h) = name)) l.

(** The exception [e] came out of a collaborator of the tunnel: the
    stream's [start_tls], a connection's [handle_request] or the request's
    trace sink. *)
Definition raised_by_collaborator (w : World) (e : Exc) : Prop :=
  (exists s ctx server_hostname timeout,
      stream_start_tls w s ctx server_hostname timeout = Raise e)
  \/ (exists c request, connection_handle_request w c request = Raise e)
  \/ (exists sink name info, trace_sink w sink name info = Raise e).

(** The call of the request's trace sink about [info], if it has a sink,
    and what the sink answers. *)
Definition trace_events (request : Request) (name : string) (info : TraceInfo)
  : list Event :=
  match extensions request !! "trace"%string with
  | None => []
  | Some sink => [CallTrace sink name info]
  end.

Definition trace_result (w : World) (request : Request) (name : string)
    (info : TraceInfo) : Result unit :=
  match extensions request !! "trace"%string with
  | None => Ok tt
  | Some sink => trace_sink w sink name info
  end.

Definition is_trace_call (e : Event) : bool :=
  match e with CallTrace _ _ _ => true | _ => false end.

(** ** Further definitions: looking headers up by name *)

(** The entries of [l] whose lowercased name is [name], in order: what a
    case-insensitive look-up of a header sees. *)
Definition named (name : bytes) (l : list Header) : list Header :=
  List.filter (fun h : Header => bool_decide (lower (fst h) = name)) l.

(** ** Further definitions: reading a base64 text back *)

Module Base64Inverse.

(** The position of a character in the alphabet. *)
Fixpoint index_in (c : byte) (l : bytes) : N :=
  match l with
  | [] => 0
  | x :: rest => if bool_decide (x = c) then 0 else N.succ (index_in c rest)
  end.

Definition sextet_index (c : byte) : N := index_in c alphabet.

Definition is_pad (c : byte) : bool := bool_decide (c = "="%byte).

Definition byte_of (n : N) : byte :=
  match Byte.of_N n with Some c => c | None => "000"%byte end.

Definition first_byte (i1 i2 : N) : byte :=
  byte_of (N.lor (N.shiftl i1 2) (N.shiftr i2 4)).

Definition second_byte (i2 i3 : N) : byte :=
  byte_of (N.lor (N.shiftl (N.land i2 15) 4) (N.shiftr i3 2)).

Definition third_byte (i3 i4 : N) : byte :=
  byte_of (N.lor (N.shiftl (N.land i3 3) 6) i4).

(** The bytes a padded base64 text stands for; used to tell encoded texts
    apart, not part of the proxy code. *)
Fixpoint unbase64 (s : bytes) : bytes :=
  match s with
  | c1 :: c2 :: c3 :: c4 :: rest =>
      let i1 := sextet_index c1 in
      let i2 := sextet_index c2 in
      let i3 := sextet_index c3 in
      let i4 := sextet_index c4 in
      if is_pad c3 then [first_byte i1 i2]
      else if is_pad c4 then [first_byte i1 i2; second_byte i2 i3]
      else first_byte i1 i2 :: second_byte i2 i3 :: third_byte i3 i4
           :: unbase64 rest
  | _ => []
  end.

(** A test on every byte. *)
Definition byte_forall (P : byte -> bool) : bool :=
  forallb (fun n => match Byte.of_N n with Some c => P c | None => true end)
          (map N.of_nat (seq 0 256)).

Definition sextet_forall (P : N -> bool) : bool :=
  forallb P (map N.of_nat (seq 0 64)).

(** The four 6-bit groups of three bytes, as [b64encode] cuts them, and
    the last group of a text that ends after one or two bytes. *)
Definition group1 (x : byte) : N := N.shiftr (Byte.to_N x) 2.

Definition group2 (x y : byte) : N :=
  N.lor (N.shiftl (N.land (Byte.to_N x) 3) 4) (N.shiftr (Byte.to_N y) 4).

Definition group2_last (x : byte) : N := N.shiftl (N.land (Byte.to_N x) 3) 4.

Definition group3 (y z : byte) : N :=
  N.lor (N.shiftl (N.land (Byte.to_N y) 15) 2) (N.shiftr (Byte.to_N z) 6).

Definition group3_last (y : byte) : N := N.shiftl (N.land (Byte.to_N y) 15) 2.

Definition group4 (z : byte) : N := N.land (Byte.to_N z) 63.

(** The checks, run over all bytes, that the groups are below 64 and give
    the bytes back. *)
Definition check_first (x y : byte) : bool :=
  (group1 x <? 64)%N && (group2 x y <? 64)%N
  && bool_decide (first_byte (group1 x) (group2 x y) = x)
  && (N.land (group2 x y) 15 =? N.shiftr (Byte.to_N y) 4)%N.

Definition check_first_last (x : byte) : bool :=
  (group1 x <? 64)%N && (group2_last x <? 64)%N
  && bool_decide (first_byte (group1 x) (group2_last x) = x).

Definition check_third (y z : byte) : bool :=
  (group3 y z <? 64)%N && (group4 z <? 64)%N
  && (N.shiftr (group3 y z) 2 =? N.land (Byte.to_N y) 15)%N
  && bool_decide (third_byte (group3 y z) (group4 z) = z).

Definition check_second (y : byte) : bool :=
  (group3_last y <? 64)%N
  && (N.shiftr (group3_last y) 2 =? N.land (Byte.to_N y) 15)%N
  && bool_decide
       (byte_of (N.lor (N.shiftl (N.shiftr (Byte.to_N y) 4) 4)
                       (N.land (Byte.to_N y) 15)) = y).

End Base64Inverse.

(** ** Further definitions: the other methods of the proxy connections *)

(** Modelled from the spec: [Origin.__eq__] is declared in httpcore._models,
    which is not among the sources.  An origin is a value: two origins are
    equal when scheme, host and port are. *)
#[global] Instance Origin_eq_dec : EqDecision Origin.
Proof. solve_decision. Defined.

Module ForwardHTTPConnectionMethods.

Import ForwardHTTPConnection.

(** [ForwardHTTPConnection.can_handle_request] *)
Definition can_handle_request (self : t) (origin : Origin) : bool :=
  bool_decide (origin = _remote_origin self).

(** [ForwardHTTPConnection.close] *)
Definition close : M t unit :=
  self <- get_self ;;
  call_close (_connection self).

End ForwardHTTPConnectionMethods.

Module TunnelHTTPConnectionMethods.

Import TunnelHTTPConnection.

(** [TunnelHTTPConnection.can_handle_request] *)
Definition can_handle_request (self : t) (origin : Origin) : bool :=
  bool_decide (origin = _remote_origin self).

(** [TunnelHTTPConnection.close] *)
Definition close : M t unit :=
  self <- get_self ;;
  call_close (_connection self).

(** What a handshake and a request never touch: the configuration given
    to the constructor. *)
Definition same_configuration (a b : t) : Prop :=
  _proxy_origin a = _proxy_origin b
  /\ _remote_origin a = _remote_origin b
  /\ _proxy_headers a = _proxy_headers b
  /\ _keepalive_expiry a = _keepalive_expiry b
  /\ _http1 a = _http1 b
  /\ _http2 a = _http2 b
  /\ option_map ctx_id (_ssl_context a) = option_map ctx_id (_ssl_context b).

(** The context the TLS upgrade uses, and the same with the protocols
    set. *)
Definition upgrade_context (w : World) (self : t) : SSLContext :=
  match _ssl_context self with
  | None => default_ssl_context w
  | Some ctx => ctx
  end.

Definition offered_context (w : World) (self : t) : SSLContext :=
  set_alpn_protocols (upgrade_context w self) (offered_alpn_protocols self).

(** The tunnel after the TLS upgrade has set the protocols on a configured
    context. *)
Definition with_offered_context (w : World) (self : t) : t :=
  set_ssl_context
    (match _ssl_context self with
     | None => None
     | Some _ => Some (offered_context w self)
     end) self.

(** Requests handled one after the other on the same tunnel; the first
    exception ends the sequence. *)
Fixpoint handle_requests (w : World) (requests : list Request)
  : M t (list Response) :=
  match requests with
  | [] => ret []
  | request :: rest =>
      response <- handle_request w request ;;
      responses <- handle_requests w rest ;;
      ret (response :: responses)
  end.

End TunnelHTTPConnectionMethods.

(** The methods of the interface, on either kind of connection. *)
Definition can_handle_request (c : ConnectionInterface) (origin : Origin) : bool :=
  match c with
  | Forward f => ForwardHTTPConnectionMethods.can_handle_request f origin
  | Tunnel t => TunnelHTTPConnectionMethods.can_handle_request t origin
  end.

(** The attributes both kinds of connection have. *)
Definition wrapped_connection (c : ConnectionInterface) : Connection :=
  match c with
  | Forward f => ForwardHTTPConnection._connection f
  | Tunnel t => TunnelHTTPConnection._connection t
  end.

Definition proxy_headers_of (c : ConnectionInterface) : list Header :=
  match c with
  | Forward f => ForwardHTTPConnection._proxy_headers f
  | Tunnel t => TunnelHTTPConnection._proxy_headers t
  end.

Definition remote_origin_of (c : ConnectionInterface) : Origin :=
  match c with
  | Forward f => ForwardHTTPConnection._remote_origin f
  | Tunnel t => TunnelHTTPConnection._remote_origin t
  end.

(** ** Further concrete objects for the examples *)

Module MoreFixtures.

(** A proxy that cannot be reached. *)
Definition unreachable_world : World :=
  {| connection_handle_request := fun _ _ => Raise Fixtures.connect_error;
     stream_start_tls := fun _ _ _ _ => Ok (network_stream 2);
     stream_ssl_object := fun _ => None;
     default_ssl_context := Fixtures.some_context;
     trace_sink := fun _ _ _ => Ok tt |}.

(** A proxy that answers 200 without handing over its stream. *)
Definition streamless_world : World :=
  {| connection_handle_request := fun _ _ => Ok (Fixtures.response_with 200 []);
     stream_start_tls := fun _ _ _ _ => Ok (network_stream 2);
     stream_ssl_object := fun _ => None;
     default_ssl_context := Fixtures.some_context;
     trace_sink := fun _ _ _ => Ok tt |}.

(** An https origin whose host holds the byte 0xE9. *)
Definition non_ascii_origin : Origin :=
  mkOrigin (b_ "https") [Byte.x73; Byte.xe9] 443.

(** A tunnel whose handshake is done, on stream 2. *)
Definition connected_tunnel : TunnelHTTPConnection.t :=
  TunnelHTTPConnection.set_connected true
    (TunnelHTTPConnection.set_connection
       (HTTP11Connection Fixtures.https_origin (network_stream 2) None)
       (Fixtures.tunnel_to Fixtures.https_origin true false None)).

(** A request with a connect timeout of five seconds. *)
Definition timed_request : Request :=
  Request_new (b_ "GET") (mkURL (b_ "https") (b_ "s") None (b_ "/"))
    [(b_ "Host", b_ "s")] None
    {[ "timeout"%string :=
         ExtTimeouts {[ "connect"%string := Some (seconds 5000);
                        "read"%string := Some (seconds 1000) ]} ]}.

(** A proxy that answers 403 with a reason phrase holding the byte 0xE9. *)
Definition forbidding_world : World :=
  {| connection_handle_request := fun _ _ =>
       Ok (Fixtures.response_with 403
             [("reason_phrase"%string,
               ExtBytes (b_ "Forbidd" ++ [Byte.xe9] ++ b_ "en"))]);
     stream_start_tls := fun _ _ _ _ => Ok (network_stream 2);
     stream_ssl_object := fun _ => None;
     default_ssl_context := Fixtures.some_context;
     trace_sink := fun _ _ _ => Ok tt |}.

(** The same request with a trace sink, and a world whose sinks raise. *)
Definition traced_request : Request :=
  Request_new (b_ "GET") (mkURL (b_ "https") (b_ "s") None (b_ "/"))
    [(b_ "Host", b_ "s")] None
    {[ "timeout"%string :=
         ExtTimeouts {[ "connect"%string := Some (seconds 5000) ]};
       "trace"%string := ExtOther 1 ]}.

Definition raising_sink_world : World :=
  {| connection_handle_request :=
       connection_handle_request (Fixtures.tunnel_world None);
     stream_start_tls := fun _ _ _ _ => Ok (network_stream 2);
     stream_ssl_object := fun _ => None;
     default_ssl_context := Fixtures.some_context;
     trace_sink := fun _ _ _ => Raise (mkExc RuntimeError "sink") |}.

End MoreFixtures.

(** ** Further definitions: the request methods of interfaces.py *)

Module InterfacesMethods.

Import Interfaces.

(** The connections from the outermost to the innermost, with their
    [_connect_failed] flags, and whether the innermost one has
    [_connection] set to [None]. *)
Fixpoint chain (c : Connection) : list (nat * bool) :=
  match c with
  | connection id failed sub =>
      (id, failed) :: match sub with Sub c' => chain c' | _ => [] end
  end.

Fixpoint ends_with_none (c : Connection) : bool :=
  match c with
  | connection _ _ NoAttribute => false
  | connection _ _ IsNone => true
  | connection _ _ (Sub c') => ends_with_none c'
  end.

(** [AsyncConnectionInterface._has_sub_connection] *)
Definition _has_sub_connection (self : Connection) : bool :=
  match self with
  | connection _ _ NoAttribute => false
  | connection _ _ _ => true
  end.

(** The calls [request] and [stream] make: the interface's own
    [handle_async_request], and [aread] and [aclose] on the response. *)
Variant Call :=
| CallHandleAsyncRequest (request_id : nat) (request : Request)
| CallARead (response : Response)
| CallAClose (response : Response).

Record State := mkState { pool : Pool; made : list Call }.

(** What the methods are given: [include_request_headers] (declared in
    httpcore._models), the [handle_async_request] of the subclass, which
    may change the pool, and the response's [aread] and [aclose]. *)
Record Collaborators := mkCollaborators {
  include_request_headers :
    list Header -> URL -> option BodyStream -> list Header;
  handle_async_request : Pool -> nat -> Request -> Result Response * Pool;
  aread : Response -> Result unit;
  aclose : Response -> Result unit }.

(** [with AsyncShieldCancellation(): body]: the name is evaluated and
    called; the shield itself does nothing to the state followed here. *)
Definition shielded {A} (globals : gmap string Global)
    (body : State -> Result A * State) (s : State) : Result A * State :=
  match load_global globals "AsyncShieldCancellation" with
  | Raise e => (Raise e, s)
  | Ok ShieldClass => body s
  | Ok _ => (Raise (mkExc TypeError "AsyncShieldCancellation"), s)
  end.

(** [try: body finally: final].  The final block sees the exception that
    is on its way ([sys.exc_info()]): the one the body raised, else the one
    the caller is handling.  An exception of the final block replaces the
    outcome of the body. *)
Definition try_finally {A} (handling : option Exc)
    (body : State -> Result A * State)
    (final : option Exc -> State -> Result unit * State)
    (s : State) : Result A * State :=
  let '(outcome, s1) := body s in
  let exc_info :=
    match outcome with
    | Raise e => Some e
    | Ok _ => handling
    end in
  match final exc_info s1 with
  | (Raise e, s2) => (Raise e, s2)
  | (Ok _, s2) => (outcome, s2)
  end.

Definition call_handle_async_request (c : Collaborators) (request_id : nat)
    (request : Request) (s : State) : Result Response * State :=
  let '(outcome, pool') := handle_async_request c (pool s) request_id request in
  (outcome, mkState pool' (made s ++ [CallHandleAsyncRequest request_id request])).

Definition call_cleanup (globals : gmap string Global) (request_id : nat)
    (exc_info : option Exc) (s : State) : Result unit * State :=
  let '(outcome, pool') :=
    AsyncRequestInterface._cleanup globals (pool s) request_id exc_info in
  (outcome, mkState pool' (made s)).

Definition call_aread (c : Collaborators) (response : Response) (s : State)
  : Result unit * State :=
  (aread c response, mkState (pool s) (made s ++ [CallARead response])).

Definition call_aclose (c : Collaborators) (response : Response) (s : State)
  : Result unit * State :=
  (aclose c response, mkState (pool s) (made s ++ [CallAClose response])).

(** The part [request] and [stream] share: the request is built and
    handled, and the clean-up runs under the shield.  [request_id] is the
    identity of the new request object; [enforce_bytes], [enforce_url] and
    [enforce_headers] leave values of these types as they are. *)
Definition send_request (globals : gmap string Global) (c : Collaborators)
    (handling : option Exc) (request_id : nat)
    (method : bytes) (url : URL) (headers : option (list Header))
    (content : option BodyStream)
    (extensions : option (gmap string ExtValue))
  : State -> Result Response * State :=
  let method := enforce_bytes method in
  let headers := enforce_headers headers in
  let headers := include_request_headers c headers url content in
  let request :=
    Request_new method url headers content
      (match extensions with Some e => e | None => ∅ end) in
  try_finally handling
    (call_handle_async_request c request_id request)
    (fun exc_info => shielded globals (call_cleanup globals request_id exc_info)).

(** [AsyncRequestInterface.request] *)
Definition request (globals : gmap string Global) (c : Collaborators)
    (handling : option Exc) (request_id : nat)
    (method : bytes) (url : URL) (headers : option (list Header))
    (content : option BodyStream)
    (extensions : option (gmap string ExtValue))
    (s : State) : Result Response * State :=
  match send_request globals c handling request_id method url headers content
          extensions s with
  | (Raise e, s1) => (Raise e, s1)
  | (Ok response, s1) =>
      match try_finally handling (call_aread c response)
              (fun _ => shielded globals (call_aclose c response)) s1 with
      | (Raise e, s2) => (Raise e, s2)
      | (Ok _, s2) => (Ok response, s2)
      end
  end.

(** [AsyncRequestInterface.stream], used as [async with ... as response:
    block]: the block runs at the [yield], and what it raises is raised
    there. *)
Definition stream {A} (globals : gmap string Global) (c : Collaborators)
    (handling : option Exc) (request_id : nat)
    (method : bytes) (url : URL) (headers : option (list Header))
    (content : option BodyStream)
    (extensions : option (gmap string ExtValue))
    (block : Response -> State -> Result A * State)
    (s : State) : Result A * State :=
  match send_request globals c handling request_id method url headers content
          extensions s with
  | (Raise e, s1) => (Raise e, s1)
  | (Ok response, s1) =>
      try_finally handling (block response)
        (fun _ => shielded globals (call_aclose c response)) s1
  end.

(** The status is the one of the request. *)
Definition status_for (request_id : nat) (status : RequestStatus) : bool :=
  Nat.eqb (status_request status) request_id.

End InterfacesMethods.

Module InterfaceFixtures.

Import Interfaces InterfacesMethods.

Definition ok_response : Response := Fixtures.response_with 200 [].

(** A subclass whose [handle_async_request] answers 200 and leaves the
    pool alone, with a body that cannot be read. *)
Definition answering : Collaborators :=
  {| include_request_headers := fun headers _ _ => headers;
     handle_async_request := fun pool _ _ => (Ok ok_response, pool);
     aread := fun _ => Raise (mkExc ReadError "peer closed connection");
     aclose := fun _ => Ok tt |}.

Definition empty_state : State := mkState (mkPool [] []) [].

Definition get_url : URL := mkURL (b_ "http") (b_ "s") None (b_ "/").

(** A block that reads nothing and fails. *)
Definition failing_block (response : Response) (s : State)
  : Result unit * State :=
  (Raise (mkExc RuntimeError "boom"), s).

End InterfaceFixtures.
Example lower_host : lower (b_ "HoSt-1") = b_ "host-1".
Proof. reflexivity. Qed.

Example merge_example :
  merge_headers (Some [(b_ "Host", b_ "a"); (b_ "Accept", b_ "*/*")])
                (Some [(b_ "HOST", b_ "b")])
  = [(b_ "Accept", b_ "*/*"); (b_ "HOST", b_ "b")].
Proof. vm_compute. reflexivity. Qed.

(** ** Properties of [merge_headers] *)

Section MergeHeaders.

Implicit Types (d o : list Header) (h : Header).

Lemma has_override_collides o h :
  lower (fst h) ∈ (list_to_set (map (fun kv : Header => lower (fst kv)) o) : gset bytes)
  <-> name_collides o h = true.
Proof.
  rewrite elem_of_list_to_set, list_elem_of_In, in_map_iff.
  unfold name_collides. rewrite existsb_exists.
  split; intros [x [Hx Hin]].
  - exists x. split; [exact Hin | apply bool_decide_eq_true; exact Hx].
  - exists x. split; [apply bool_decide_eq_true in Hin; exact Hin | exact Hx].
Qed.

Lemma filter_not_override d o :
  filter (fun kv : Header =>
            lower (fst kv) ∉ (list_to_set (map (fun kv : Header => lower (fst kv)) o) : gset bytes)) d
  = List.filter (fun h => negb (name_collides o h)) d.
Proof.
  induction d as [|h d IH]; [reflexivity|].
  rewrite filter_cons. simpl. rewrite IH.
  destruct (name_collides o h) eqn:E; simpl.
  - rewrite decide_False; [reflexivity|].
    intros Hn. apply Hn. apply has_override_collides. exact E.
  - rewrite decide_True; [reflexivity|].
    intros Hin. apply has_override_collides in Hin. congruence.
Qed.

Lemma merge_headers_unfold (d o : option (list Header)) :
  merge_headers d o
  = List.filter (fun h => negb (name_collides (or_empty o) h)) (or_empty d) ++ or_empty o.
Proof.
  unfold merge_headers. cbv zeta. rewrite filter_not_override.
  destruct d, o; reflexivity.
Qed.

Lemma collides_self o h : In h o -> name_collides o h = true.
Proof.
  intros Hin. unfold name_collides. apply existsb_exists.
  exists h. split; [exact Hin | apply bool_decide_eq_true; reflexivity].
Qed.

Lemma filter_overrides_nil o o' :
  incl o o' -> List.filter (fun h => negb (name_collides o' h)) o = [].
Proof.
  induction o as [|h o IH]; intros Hincl; [reflexivity|].
  simpl. rewrite (collides_self o' h) by (apply Hincl; left; reflexivity).
  simpl. apply IH. intros x Hx. apply Hincl. right. exact Hx.
Qed.

Lemma filter_filter_same (f : Header -> bool) d :
  List.filter f (List.filter f d) = List.filter f d.
Proof.
  induction d as [|h d IH]; [reflexivity|].
  simpl. destruct (f h) eqn:E; simpl; rewrite ?E, IH; reflexivity.
Qed.

End MergeHeaders.

(** C1: [merge_headers] returns the default entries whose lowercased name is
    the lowercased name of no override entry, in their order, followed by
    all the override entries in their order; [None] counts as the empty
    list. *)
Theorem merge_headers_correct (defaults overrides : option (list Header)) :
  merge_headers defaults overrides = merge_headers_spec defaults overrides.
Proof. unfold merge_headers_spec. apply merge_headers_unfold. Qed.

(** C8: merging is idempotent in its first argument:
    [merge_headers (merge_headers d o) o = merge_headers d o]. *)
Theorem merge_headers_idempotent (d o : option (list Header)) :
  merge_headers (Some (merge_headers d o)) o = merge_headers d o.
Proof.
  rewrite !merge_headers_unfold. simpl or_empty at 2.
  rewrite List.filter_app, filter_filter_same.
  rewrite (filter_overrides_nil (or_empty o) (or_empty o)) by apply incl_refl.
  rewrite app_nil_r. reflexivity.
Qed.

(** ** Concrete checks of the byte helpers *)

Example b64encode_userpass :
  b64encode (b_ "user:pass") = b_ "dXNlcjpwYXNz"
  /\ b64encode (b_ "a") = b_ "YQ=="
  /\ b64encode (b_ "ab") = b_ "YWI=".
Proof. repeat split; reflexivity. Qed.

Example build_auth_header_example :
  build_auth_header (b_ "Aladdin") (b_ "open sesame")
  = b_ "Basic QWxhZGRpbjpvcGVuIHNlc2FtZQ==".
Proof. reflexivity. Qed.

Example URL_bytes_absolute_form :
  URL_bytes (mkURL (b_ "http") (b_ "s") None (b_ "/x")) = b_ "http://s/x".
Proof. reflexivity. Qed.

(** ** [HTTPProxy] *)

(** C9: with [proxy_auth = (username, password)] the pool's proxy headers
    are the entry [(b"Proxy-Authorization", b"Basic " + base64(username +
    b":" + password))] followed by the caller's proxy headers, so the first
    entry of that name, compared without case, is the generated one. *)
Theorem proxy_authorization_prepended
    (super_init : HTTPProxy.ConnectionPool) (proxy_url : URL)
    (username password : bytes) (proxy_headers : option (list Header))
    (ssl_context : option SSLContext) (proxy_mode : ProxyMode) :
  let authorization :=
    (b_ "Proxy-Authorization",
     b_ "Basic " ++ b64encode (username ++ b_ ":" ++ password)) in
  let self :=
    HTTPProxy.__init__ super_init proxy_url (Some (username, password))
      proxy_headers ssl_context proxy_mode in
  HTTPProxy._proxy_headers self = authorization :: or_empty proxy_headers
  /\ List.find
       (fun h : Header =>
          bool_decide (lower (fst h) = lower (b_ "Proxy-Authorization")))
       (HTTPProxy._proxy_headers self)
     = Some authorization.
Proof.
  intros authorization self. split.
  - destruct proxy_headers; reflexivity.
  - unfold self, HTTPProxy.__init__. cbn [HTTPProxy._proxy_headers app List.find fst].
    rewrite bool_decide_eq_true_2 by reflexivity. reflexivity.
Qed.

Lemma create_connection_forward_iff (URL_origin : URL -> Origin)
    (self : HTTPProxy.t) (origin : Origin) :
  is_forward (HTTPProxy.create_connection URL_origin self origin) = true
  <-> HTTPProxy._proxy_mode self = FORWARD
      \/ (HTTPProxy._proxy_mode self = DEFAULT /\ scheme origin = b_ "http").
Proof.
  unfold HTTPProxy.create_connection.
  destruct (bool_decide (HTTPProxy._proxy_mode self = FORWARD)) eqn:Ef;
    [apply bool_decide_eq_true in Ef | apply bool_decide_eq_false in Ef];
  destruct (bool_decide (HTTPProxy._proxy_mode self = DEFAULT)) eqn:Ed;
    [apply bool_decide_eq_true in Ed | apply bool_decide_eq_false in Ed
    |apply bool_decide_eq_true in Ed | apply bool_decide_eq_false in Ed];
  destruct (bool_decide (scheme origin = b_ "http")) eqn:Es;
    [apply bool_decide_eq_true in Es | apply bool_decide_eq_false in Es
    |apply bool_decide_eq_true in Es | apply bool_decide_eq_false in Es
    |apply bool_decide_eq_true in Es | apply bool_decide_eq_false in Es
    |apply bool_decide_eq_true in Es | apply bool_decide_eq_false in Es];
  simpl; intuition congruence.
Qed.

(** C7, as the code has it: [create_connection] returns a forwarding
    connection exactly when the proxy mode is [FORWARD], or the mode is
    [DEFAULT] and the origin's scheme is [http]; so in the [DEFAULT] mode an
    https destination is given a tunnel, and in the [TUNNEL] mode every
    origin is. *)
Theorem create_connection_forward_by_mode (URL_origin : URL -> Origin)
    (self : HTTPProxy.t) (origin : Origin) :
  (is_forward (HTTPProxy.create_connection URL_origin self origin) = true
   <-> HTTPProxy._proxy_mode self = FORWARD
       \/ (HTTPProxy._proxy_mode self = DEFAULT /\ scheme origin = b_ "http"))
  /\ (HTTPProxy._proxy_mode self = DEFAULT ->
      is_forward (HTTPProxy.create_connection URL_origin self origin) = true ->
      scheme origin = b_ "http")
  /\ (HTTPProxy._proxy_mode self = TUNNEL ->
      is_forward (HTTPProxy.create_connection URL_origin self origin) = false).
Proof.
  pose proof (create_connection_forward_iff URL_origin self origin) as Hiff.
  split; [exact Hiff|]. split.
  - intros Hd Hf. apply Hiff in Hf. destruct Hf as [Hf | [_ Hs]]; congruence.
  - intros Ht. apply not_true_is_false. intros E.
    apply Hiff in E. destruct E as [E | [E _]]; congruence.
Qed.

(** C7 as the specification words it fails: a pool in the [FORWARD] mode gives a
    forwarding connection to an https origin. *)
Lemma create_connection_forward_https :
  ~ (is_forward
       (HTTPProxy.create_connection Fixtures.origin_of Fixtures.forward_pool
          Fixtures.https_origin) = true
     -> scheme Fixtures.https_origin = b_ "http").
Proof.
  intros H. specialize (H eq_refl). discriminate H.
Qed.

Lemma create_connection_forward_by_mode_witness :
  is_forward
    (HTTPProxy.create_connection Fixtures.origin_of
       (HTTPProxy.__init__ (Fixtures.pool_fields true false) Fixtures.proxy_url
          None None None TUNNEL)
       Fixtures.http_origin) = false.
Proof.
  apply (create_connection_forward_by_mode Fixtures.origin_of
           (HTTPProxy.__init__ (Fixtures.pool_fields true false) Fixtures.proxy_url
              None None None TUNNEL)
           Fixtures.http_origin).
  reflexivity.
Defined.

(** ** [ForwardHTTPConnection] *)

(** C5: [handle_request] of a forwarding connection makes one call, the
    wrapped connection's [handle_request], and returns its answer.  The
    request it passes has the proxy origin's scheme, host and port and the
    absolute form of the original URL as target; its headers are
    [merge_headers(proxy_headers, request.headers)], the proxy's headers
    that collide by lowercased name with a request header being dropped;
    method, body stream and extensions are those of the original request. *)
Theorem forward_request_rewritten (w : World) (request : Request)
    (r : Run ForwardHTTPConnection.t) :
  let this := self r in
  let sent := ForwardHTTPConnection.proxy_request this request in
  ForwardHTTPConnection.handle_request w request r
  = (connection_handle_request w (ForwardHTTPConnection._connection this) sent,
     mkRun this
       (calls r ++ [CallHandleRequest (ForwardHTTPConnection._connection this) sent]))
  /\ url_scheme (url sent) = scheme (ForwardHTTPConnection._proxy_origin this)
  /\ url_host (url sent) = host (ForwardHTTPConnection._proxy_origin this)
  /\ url_port (url sent) = Some (port (ForwardHTTPConnection._proxy_origin this))
  /\ url_target (url sent) = URL_bytes (url request)
  /\ headers sent
     = merge_headers (Some (ForwardHTTPConnection._proxy_headers this))
                     (Some (headers request))
  /\ headers sent
     = List.filter (fun h => negb (name_collides (headers request) h))
         (ForwardHTTPConnection._proxy_headers this)
       ++ headers request
  /\ method sent = method request
  /\ stream sent = stream request
  /\ extensions sent = extensions request.
Proof.
  intros this sent.
  split; [|repeat split; try reflexivity].
  - unfold ForwardHTTPConnection.handle_request, call_handle_request,
      bind, get_self, emit, lift.
    simpl. reflexivity.
  - unfold sent, ForwardHTTPConnection.proxy_request. simpl.
    apply merge_headers_unfold.
Qed.

Example forward_plaintext_scenario :
  let sent :=
    ForwardHTTPConnection.proxy_request
      (Fixtures.forward_to Fixtures.http_origin) Fixtures.get_plain_request in
  url_target (url sent) = b_ "http://s/x"
  /\ headers sent
     = [(b_ "Proxy-Authorization", b_ "Basic dXNlcjpwYXNz");
        (b_ "Host", b_ "s"); (b_ "x-via", b_ "client")].
Proof. vm_compute. split; reflexivity. Qed.

(** ** [TunnelHTTPConnection] *)

Section Tunnel.

Import TunnelHTTPConnection.

Variable w : World.

Implicit Types (request : Request) (r : Run t) (timeout : option Seconds).

Ltac unfold_run :=
  unfold call_handle_request, call_close, call_start_tls,
    bind, ret, raise, get_self, set_self, emit, lift in *.

(** The status test of the handshake is the test "not in [200, 300)". *)
Lemma status_refused_iff (s : Z) :
  (s <? 200) || (s >? 299) = false <-> 200 <= s < 300.
Proof.
  rewrite orb_false_iff, Z.ltb_ge, Z.gtb_ltb, Z.ltb_ge. lia.
Qed.

(** A call of the trace sink, step by step. *)
Lemma trace_call_run request (name : string) (info : TraceInfo) r :
  trace_call w request name info r
  = (trace_result w request name info,
     mkRun (self r) (calls r ++ trace_events request name info)).
Proof.
  unfold trace_call, trace_result, trace_events.
  destruct (extensions request !! "trace"%string) as [sink|].
  - reflexivity.
  - unfold ret. rewrite app_nil_r. destruct r. reflexivity.
Qed.

(** The TLS upgrade, step by step. *)
Lemma upgrade_to_tls_run request (raw : NetworkStream) timeout r :
  let ctx0 :=
    match _ssl_context (self r) with
    | None => default_ssl_context w
    | Some ctx => ctx
    end in
  let alpn := offered_alpn_protocols (self r) in
  let ctx := set_alpn_protocols ctx0 alpn in
  let this :=
    set_ssl_context
      (match _ssl_context (self r) with None => None | Some _ => Some ctx end)
      (self r) in
  let r1 := mkRun this (calls r ++ [CallSetAlpnProtocols ctx0 alpn]) in
  upgrade_to_tls w request raw timeout r
  = match decode_ascii (host (_remote_origin (self r))) with
    | None => (Raise (mkExc UnicodeDecodeError "ascii"), r1)
    | Some server_hostname =>
        let started := TraceStarted ctx server_hostname timeout in
        let told :=
          calls r ++ CallSetAlpnProtocols ctx0 alpn
          :: trace_events request "start_tls" started in
        match trace_result w request "start_tls" started with
        | Raise e => (Raise e, mkRun this told)
        | Ok _ =>
            let upgrade := CallStartTLS raw ctx server_hostname timeout in
            match stream_start_tls w raw ctx server_hostname timeout with
            | Raise e =>
                (match trace_result w request "start_tls" (TraceFailed e) with
                 | Raise e' => Raise e'
                 | Ok _ => Raise e
                 end,
                 mkRun this
                   (told ++ upgrade
                    :: trace_events request "start_tls" (TraceFailed e)))
            | Ok stream =>
                (match trace_result w request "start_tls" (TraceComplete stream) with
                 | Raise e => Raise e
                 | Ok _ =>
                     Ok (stream,
                         match stream_ssl_object w stream with
                         | Some selected =>
                             bool_decide (selected = Some "h2"%string)
                         | None => false
                         end)
                 end,
                 mkRun this
                   (told ++ upgrade
                    :: trace_events request "start_tls" (TraceComplete stream)))
            end
        end
    end.
Proof.
  intros ctx0 alpn ctx this r1.
  unfold upgrade_to_tls, traced. unfold bind at 1 2 3 4.
  unfold get_self, set_self, emit, lift. cbn [self calls].
  destruct (decode_ascii (host (_remote_origin (self r)))) as [hn|]; [|reflexivity].
  fold ctx0 alpn ctx. unfold bind at 1. unfold bind at 1.
  rewrite trace_call_run. cbn [self calls].
  destruct (trace_result w request "start_tls" (TraceStarted ctx hn timeout))
    as [u|e].
  2:{ cbv zeta. rewrite <- app_assoc. reflexivity. }
  unfold call_start_tls, bind, emit, lift. cbn [self calls].
  destruct (stream_start_tls w raw ctx hn timeout) as [stream|e];
    rewrite trace_call_run; cbn [self calls]; cbv zeta;
    rewrite <- !app_assoc; cbn [app].
  - destruct (trace_result w request "start_tls" (TraceComplete stream));
      reflexivity.
  - destruct (trace_result w request "start_tls" (TraceFailed e)); reflexivity.
Qed.

(** The TLS upgrade only adds calls. *)
Lemma upgrade_to_tls_appends request (raw : NetworkStream) timeout r :
  exists l,
    calls (snd (upgrade_to_tls w request raw timeout r)) = calls r ++ l.
Proof.
  rewrite upgrade_to_tls_run. cbv zeta.
  destruct (decode_ascii (host (_remote_origin (self r)))) as [hn|];
    [|eexists; reflexivity].
  match goal with
  | |- context [trace_result w request "start_tls" (TraceStarted ?c ?h ?t)] =>
      destruct (trace_result w request "start_tls" (TraceStarted c h t))
  end; [|eexists; reflexivity].
  match goal with
  | |- context [stream_start_tls w ?s ?c ?h ?t] =>
      destruct (stream_start_tls w s c h t)
  end; cbn [snd calls]; rewrite <- app_assoc; eexists; reflexivity.
Qed.

(** The handshake, step by step. *)
Lemma connect_run request timeout r :
  let conn := _connection (self r) in
  let sent := connect_request (self r) request in
  let r1 := mkRun (self r) (calls r ++ [CallHandleRequest conn sent]) in
  connect w request timeout r
  = match connection_handle_request w conn sent with
    | Raise e => (Raise e, r1)
    | Ok response =>
        if (status response <? 200) || (status response >? 299) then
          match reason_str response with
          | Raise e => (Raise e, r1)
          | Ok reason =>
              (Raise (mkExc ProxyError
                        (proxy_error_message (status response) reason)),
               mkRun (self r)
                 (calls r ++ [CallHandleRequest conn sent; CallClose conn]))
          end
        else
          match response_network_stream response with
          | Raise e => (Raise e, r1)
          | Ok raw =>
              if bool_decide (scheme (_remote_origin (self r)) = b_ "https") then
                match upgrade_to_tls w request raw timeout r1 with
                | (Raise e, r2) => (Raise e, r2)
                | (Ok (stream, negotiated), r2) =>
                    (Ok tt,
                     mkRun (set_connected true
                              (set_connection
                                 (new_connection (self r2) stream negotiated)
                                 (self r2)))
                       (calls r2))
                end
              else
                (Ok tt,
                 mkRun (set_connected true
                          (set_connection (new_connection (self r) raw false)
                             (self r)))
                   (calls r1))
          end
    end.
Proof.
  intros conn sent r1.
  unfold connect. unfold_run. cbn [self calls]. fold conn sent.
  destruct (connection_handle_request w conn sent) as [response|e]; [|reflexivity].
  destruct ((status response <? 200) || (status response >? 299)).
  - destruct (reason_str response); [|reflexivity].
    cbn [self calls]. rewrite <- app_assoc. reflexivity.
  - destruct (response_network_stream response) as [raw|e]; [|reflexivity].
    destruct (bool_decide (scheme (_remote_origin (self r)) = b_ "https")).
    + fold r1.
      destruct (upgrade_to_tls w request raw timeout r1) as [[[stream negotiated]|e] r2];
        reflexivity.
    + reflexivity.
Qed.

(** The reason in the message: the [reason_phrase] extension read as text
    when all its bytes are ASCII, the empty text when there is none. *)
Lemma reason_str_ascii (response : Response) (phrase : bytes) :
  response_extensions response !! "reason_phrase"%string = Some (ExtBytes phrase) ->
  forallb is_ascii_byte phrase = true ->
  reason_str response = Ok (string_of_list_byte phrase).
Proof.
  intros Hext Hascii. unfold reason_str, decode_ascii_ignore. rewrite Hext.
  f_equal. f_equal. clear Hext.
  induction phrase as [|c phrase IH]; [reflexivity|].
  simpl in Hascii. apply andb_true_iff in Hascii as [Hc Hrest].
  simpl. rewrite Hc, IH by exact Hrest. reflexivity.
Qed.

Lemma reason_str_absent (response : Response) :
  response_extensions response !! "reason_phrase"%string = None ->
  reason_str response = Ok ""%string.
Proof. intros Hext. unfold reason_str. rewrite Hext. reflexivity. Qed.

(** [handle_request]: the handshake when not yet connected, then the
    request on the wrapped connection. *)
Lemma handle_request_run request r :
  handle_request w request r
  = match connect_timeout request with
    | Raise e => (Raise e, r)
    | Ok timeout =>
        let send r' :=
          (connection_handle_request w (_connection (self r')) request,
           mkRun (self r')
             (calls r' ++ [CallHandleRequest (_connection (self r')) request])) in
        if _connected (self r) then send r
        else match connect w request timeout r with
             | (Raise e, r') => (Raise e, r')
             | (Ok _, r') => send r'
             end
    end.
Proof.
  unfold handle_request. unfold_run.
  destruct (connect_timeout request) as [timeout|e]; [|reflexivity].
  destruct (_connected (self r)); cbn [negb].
  - reflexivity.
  - destruct (connect w request timeout r) as [[u|e] r']; reflexivity.
Qed.

Lemma trace_result_raised request (name : string) (info : TraceInfo) e :
  trace_result w request name info = Raise e ->
  exists sink name' info', trace_sink w sink name' info' = Raise e.
Proof.
  unfold trace_result.
  destruct (extensions request !! "trace"%string) as [sink|]; [eauto|discriminate].
Qed.

(** C2: when the proxy answers the CONNECT request with a status outside
    [200, 300), [handle_request] makes exactly two calls, the CONNECT request
    and then [close] on the proxy connection, sends nothing again, and raises
    [ProxyError] with the message made of the status in decimal, a space and
    the bytes of the response's [reason_phrase] extension decoded as ASCII
    (no bytes when the extension is missing); when the status is within
    [200, 300), a [ProxyError] leaves [handle_request] only if a
    collaborator raised it. *)
Theorem connect_refused_raises_ProxyError request timeout r response :
  _connected (self r) = false ->
  connect_timeout request = Ok timeout ->
  connection_handle_request w (_connection (self r))
    (connect_request (self r) request) = Ok response ->
  (~ 200 <= status response < 300 ->
   forall reason_phrase : option bytes,
     response_extensions response !! "reason_phrase"%string
     = option_map ExtBytes reason_phrase ->
     handle_request w request r
     = (Raise (mkExc ProxyError
                 (str_of_int (status response) ++ " "
                  ++ decode_ascii_ignore
                       (match reason_phrase with Some phrase => phrase | None => [] end))%string),
        mkRun (self r)
          (calls r
           ++ [CallHandleRequest (_connection (self r))
                 (connect_request (self r) request);
               CallClose (_connection (self r))])))
  /\ (200 <= status response < 300 ->
      forall e, fst (handle_request w request r) = Raise e ->
        exc_class e = ProxyError -> raised_by_collaborator w e).
Proof.
  intros Hconn Htimeout Hresp.
  rewrite handle_request_run, Htimeout, Hconn, connect_run, Hresp.
  cbv zeta. split.
  - intros Hout reason_phrase Hreason.
    destruct ((status response <? 200) || (status response >? 299)) eqn:E.
    + unfold reason_str. rewrite Hreason.
      destruct reason_phrase as [phrase|]; reflexivity.
    + apply status_refused_iff in E. contradiction.
  - intros Hin e.
    apply status_refused_iff in Hin. rewrite Hin.
    unfold response_network_stream.
    destruct (response_extensions response !! "network_stream"%string)
      as [[b|raw|ts|n]|];
      try (cbn [fst]; intros He Hc; injection He as <-; discriminate Hc).
    destruct (bool_decide (scheme (_remote_origin (self r)) = b_ "https")).
    + rewrite upgrade_to_tls_run. cbv zeta. cbn [self calls].
      destruct (decode_ascii (host (_remote_origin (self r)))) as [hn|];
        [|cbn [fst]; intros He Hc; injection He as <-; discriminate Hc].
      match goal with
      | |- context [trace_result w request "start_tls" (TraceStarted ?c ?h ?t)] =>
          destruct (trace_result w request "start_tls" (TraceStarted c h t))
            as [u|e1] eqn:Estarted
      end.
      2:{ cbn [fst]. intros He _. injection He as <-.
          right. right. eapply trace_result_raised. exact Estarted. }
      match goal with
      | |- context [stream_start_tls w ?s ?c ?h ?t] =>
          destruct (stream_start_tls w s c h t) as [stream|e'] eqn:Etls
      end.
      * destruct (trace_result w request "start_tls" (TraceComplete stream))
          as [u'|e2] eqn:Ecomplete.
        -- cbn [fst self]. intros He _. right. left. eauto.
        -- cbn [fst]. intros He _. injection He as <-.
           right. right. eapply trace_result_raised. exact Ecomplete.
      * destruct (trace_result w request "start_tls" (TraceFailed e'))
          as [u'|e2] eqn:Efailed.
        -- cbn [fst]. intros He _. injection He as <-. left. eauto 6.
        -- cbn [fst]. intros He _. injection He as <-.
           right. right. eapply trace_result_raised. exact Efailed.
    + cbn [fst self]. intros He _. right. left. eauto.
Qed.


(** Once the handshake has succeeded, the request goes to the new
    connection, and to it alone. *)
Lemma handle_request_after_connect request timeout r r' :
  _connected (self r) = false ->
  connect_timeout request = Ok timeout ->
  connect w request timeout r = (Ok tt, r') ->
  handle_request w request r
  = (connection_handle_request w (_connection (self r')) request,
     mkRun (self r')
       (calls r' ++ [CallHandleRequest (_connection (self r')) request])).
Proof.
  intros Hc Ht Hrun. rewrite handle_request_run, Ht, Hc, Hrun. reflexivity.
Qed.

(** Once connected, the handshake is skipped. *)
Lemma handle_request_connected request timeout r :
  _connected (self r) = true ->
  connect_timeout request = Ok timeout ->
  handle_request w request r
  = (connection_handle_request w (_connection (self r)) request,
     mkRun (self r)
       (calls r ++ [CallHandleRequest (_connection (self r)) request])).
Proof.
  intros Hc Ht. rewrite handle_request_run, Ht, Hc. reflexivity.
Qed.

Lemma trace_events_are_trace_calls request (name : string) (info : TraceInfo) :
  forallb is_trace_call (trace_events request name info) = true.
Proof.
  unfold trace_events.
  destruct (extensions request !! "trace"%string); reflexivity.
Qed.

(** C4, as the code has it: when the proxy has answered the CONNECT request
    with a status in [200, 300) and a network stream, the remote host is
    ASCII, and the request's trace sink, if it has one, does not raise when
    told that [start_tls] starts, the handshake calls [start_tls], once,
    exactly when the remote scheme is https; the context it passes offers
    the ALPN protocols [["http/1.1", "h2"]] when http2 is enabled and
    [["http/1.1"]] otherwise, and the server hostname is the remote host
    decoded as ASCII.  Around the call only the trace sink is told. *)
Theorem tunnel_tls_upgrade request timeout r response raw server_hostname :
  connection_handle_request w (_connection (self r))
    (connect_request (self r) request) = Ok response ->
  200 <= status response < 300 ->
  response_network_stream response = Ok raw ->
  decode_ascii (host (_remote_origin (self r))) = Some server_hostname ->
  let this := self r in
  let ctx0 :=
    match _ssl_context this with
    | None => default_ssl_context w
    | Some ctx => ctx
    end in
  let alpn :=
    if _http2 this then ["http/1.1"; "h2"]%string else ["http/1.1"]%string in
  let started :=
    TraceStarted (set_alpn_protocols ctx0 alpn) server_hostname timeout in
  (scheme (_remote_origin this) = b_ "https" ->
   trace_result w request "start_tls" started = Ok tt) ->
  (exists told,
      forallb is_trace_call told = true
      /\ calls (snd (connect w request timeout r))
         = calls r
           ++ CallHandleRequest (_connection this) (connect_request this request)
           :: (if bool_decide (scheme (_remote_origin this) = b_ "https")
               then CallSetAlpnProtocols ctx0 alpn
                    :: trace_events request "start_tls" started
                    ++ CallStartTLS raw (set_alpn_protocols ctx0 alpn)
                         server_hostname timeout
                    :: told
               else []))
  /\ alpn_protocols (set_alpn_protocols ctx0 alpn) = alpn.
Proof.
  intros Hresp Hstatus Hraw Hhost this ctx0 alpn started Hsink.
  split; [|reflexivity].
  subst this.
  rewrite connect_run, Hresp. cbv zeta.
  apply status_refused_iff in Hstatus. rewrite Hstatus, Hraw.
  destruct (bool_decide (scheme (_remote_origin (self r)) = b_ "https")) eqn:Es.
  - apply bool_decide_eq_true in Es. specialize (Hsink Es).
    rewrite upgrade_to_tls_run. cbv zeta. cbn [self calls].
    rewrite Hhost. fold ctx0. unfold offered_alpn_protocols. fold alpn.
    fold started. rewrite Hsink.
    destruct (stream_start_tls w raw (set_alpn_protocols ctx0 alpn)
                server_hostname timeout) as [stream|e].
    + exists (trace_events request "start_tls" (TraceComplete stream)).
      split; [apply trace_events_are_trace_calls|].
      destruct (trace_result w request "start_tls" (TraceComplete stream));
        cbn [snd calls]; rewrite <- !app_assoc; reflexivity.
    + exists (trace_events request "start_tls" (TraceFailed e)).
      split; [apply trace_events_are_trace_calls|].
      destruct (trace_result w request "start_tls" (TraceFailed e));
        cbn [snd calls]; rewrite <- !app_assoc; reflexivity.
  - exists []. split; reflexivity.
Qed.

(** C10: the CONNECT request is the first call of the handshake, and its
    headers are the generated [Host: <host>:<port>] and [Accept: */*], each
    left out when the proxy headers hold an entry of the same lowercased
    name, followed by all the proxy headers. *)
Theorem connect_request_headers request timeout r :
  let this := self r in
  let host_header := (b_ "Host", host (_remote_origin this) ++ b_ ":"
                                 ++ bytes_of_int (port (_remote_origin this))) in
  let accept_header := (b_ "Accept", b_ "*/*") in
  headers (connect_request this request)
  = (if has_name (b_ "host") (_proxy_headers this) then [] else [host_header])
    ++ (if has_name (b_ "accept") (_proxy_headers this) then [] else [accept_header])
    ++ _proxy_headers this
  /\ headers (connect_request this request)
     = merge_headers_spec (Some [host_header; accept_header])
         (Some (_proxy_headers this))
  /\ exists rest,
       calls (snd (connect w request timeout r))
       = calls r
         ++ CallHandleRequest (_connection this) (connect_request this request)
         :: rest.
Proof.
  intros this host_header accept_header.
  assert (Hspec : headers (connect_request this request)
                  = merge_headers_spec (Some [host_header; accept_header])
                      (Some (_proxy_headers this))).
  { unfold connect_request, connect_headers, Request_new. cbn [headers].
    unfold merge_headers_spec. apply merge_headers_unfold. }
  split; [|split; [exact Hspec|]].
  - rewrite Hspec. unfold merge_headers_spec. cbn [or_empty List.filter].
    change (name_collides (_proxy_headers this) host_header)
      with (has_name (b_ "host") (_proxy_headers this)).
    change (name_collides (_proxy_headers this) accept_header)
      with (has_name (b_ "accept") (_proxy_headers this)).
    destruct (has_name (b_ "host") (_proxy_headers this));
      destruct (has_name (b_ "accept") (_proxy_headers this)); reflexivity.
  - rewrite connect_run. cbv zeta. fold this.
    destruct (connection_handle_request w (_connection this)
                (connect_request this request)) as [response|e];
      [|eexists; reflexivity].
    destruct ((status response <? 200) || (status response >? 299)).
    { destruct (reason_str response); eexists; reflexivity. }
    destruct (response_network_stream response) as [raw|e];
      [|eexists; reflexivity].
    destruct (bool_decide (scheme (_remote_origin this) = b_ "https"));
      [|eexists; reflexivity].
    match goal with
    | |- context [upgrade_to_tls w request raw timeout ?r1] =>
        destruct (upgrade_to_tls_appends request raw timeout r1) as [l Hl];
        destruct (upgrade_to_tls w request raw timeout r1)
          as [[[stream negotiated]|e] r2]
    end; cbn [snd calls] in *; rewrite Hl, <- app_assoc; eexists; reflexivity.
Qed.

End Tunnel.

Lemma connect_refused_raises_ProxyError_witness :
  fst (TunnelHTTPConnection.handle_request Fixtures.refusing_world
         Fixtures.get_request
         (Fixtures.start (Fixtures.tunnel_to Fixtures.https_origin true false None)))
  = Raise (mkExc ProxyError "407 Proxy Authentication Required").
Proof.
  destruct (connect_refused_raises_ProxyError Fixtures.refusing_world
              Fixtures.get_request None
              (Fixtures.start (Fixtures.tunnel_to Fixtures.https_origin true false None))
              (Fixtures.response_with 407
                 [("reason_phrase"%string,
                   ExtBytes (b_ "Proxy Authentication Required"))])
              eq_refl eq_refl eq_refl) as [Hrefused _].
  rewrite (Hrefused ltac:(simpl; lia)
             (Some (b_ "Proxy Authentication Required")) eq_refl).
  reflexivity.
Defined.

Example connect_refused_scenario :
  TunnelHTTPConnection.handle_request Fixtures.refusing_world Fixtures.get_request
    (Fixtures.start (Fixtures.tunnel_to Fixtures.https_origin true false None))
  = (Raise (mkExc ProxyError "407 Proxy Authentication Required"),
     let this := Fixtures.tunnel_to Fixtures.https_origin true false None in
     mkRun this
       [CallHandleRequest (TunnelHTTPConnection._connection this)
          (TunnelHTTPConnection.connect_request this Fixtures.get_request);
        CallClose (TunnelHTTPConnection._connection this)]).
Proof. vm_compute. reflexivity. Qed.


Example tunnel_http1_when_alpn_selects_http11 :
  let this := Fixtures.tunnel_to Fixtures.https_origin true true None in
  TunnelHTTPConnection._connection
    (self (snd (TunnelHTTPConnection.connect
                  (Fixtures.tunnel_world (Some "http/1.1"%string))
                  Fixtures.get_request None (Fixtures.start this))))
  = HTTP11Connection Fixtures.https_origin (network_stream 2) None.
Proof. vm_compute. reflexivity. Qed.

Example tunnel_plaintext_keeps_stream :
  let this := Fixtures.tunnel_to Fixtures.http_origin true true None in
  TunnelHTTPConnection._connection
    (self (snd (TunnelHTTPConnection.connect
                  (Fixtures.tunnel_world (Some "h2"%string))
                  Fixtures.get_request None (Fixtures.start this))))
  = HTTP11Connection Fixtures.http_origin (network_stream 1) None.
Proof. vm_compute. reflexivity. Qed.

(** C4 as the specification words it fails: with http2 on, the context passed
    to [start_tls] offers [["http/1.1", "h2"]], not [["h2", "http/1.1"]]. *)
Lemma tunnel_alpn_offer_order :
  let this := Fixtures.tunnel_to Fixtures.https_origin true true None in
  let r' :=
    snd (TunnelHTTPConnection.connect (Fixtures.tunnel_world (Some "h2"%string))
           Fixtures.get_request None (Fixtures.start this)) in
  ~ (forall s ctx server_hostname timeout,
        In (CallStartTLS s ctx server_hostname timeout) (calls r') ->
        alpn_protocols ctx = ["h2"; "http/1.1"]%string).
Proof.
  intros this r' H.
  specialize (H (network_stream 1)
                (mkSSLContext 0 ["http/1.1"; "h2"]%string) "s"%string None).
  assert (Hin : In (CallStartTLS (network_stream 1)
                      (mkSSLContext 0 ["http/1.1"; "h2"]%string) "s"%string None)
                   (calls r')).
  { vm_compute. right. right. left. reflexivity. }
  specialize (H Hin). discriminate H.
Qed.

Lemma tunnel_tls_upgrade_witness :
  let this := Fixtures.tunnel_to Fixtures.https_origin true true None in
  exists told,
    forallb is_trace_call told = true
    /\ calls (snd (TunnelHTTPConnection.connect
                     (Fixtures.tunnel_world (Some "h2"%string))
                     Fixtures.get_request None (Fixtures.start this)))
       = [CallHandleRequest (TunnelHTTPConnection._connection this)
            (TunnelHTTPConnection.connect_request this Fixtures.get_request);
          CallSetAlpnProtocols Fixtures.some_context ["http/1.1"; "h2"]%string;
          CallStartTLS (network_stream 1)
            (mkSSLContext 0 ["http/1.1"; "h2"]%string) "s"%string None]
         ++ told.
Proof.
  intros this.
  destruct (tunnel_tls_upgrade (Fixtures.tunnel_world (Some "h2"%string))
              Fixtures.get_request None (Fixtures.start this)
              (Fixtures.response_with 200
                 [("reason_phrase"%string, ExtBytes (b_ "Connection established"));
                  ("network_stream"%string, ExtStream (network_stream 1))])
              (network_stream 1) "s"%string
              eq_refl ltac:(simpl; lia) eq_refl eq_refl (fun _ => eq_refl))
    as [[told [Htold Hcalls]] _].
  exists told. split; [exact Htold|]. rewrite Hcalls. reflexivity.
Defined.

Example connect_headers_default :
  TunnelHTTPConnection.connect_headers
    (Fixtures.tunnel_to Fixtures.https_origin true false None)
  = [(b_ "Host", b_ "s:443"); (b_ "Accept", b_ "*/*")].
Proof. vm_compute. reflexivity. Qed.

Example connect_headers_host_replaced :
  TunnelHTTPConnection.connect_headers
    (Fixtures.tunnel_to Fixtures.https_origin true false
       (Some [(b_ "HOST", b_ "other"); (b_ "X-Via", b_ "test")]))
  = [(b_ "Accept", b_ "*/*"); (b_ "HOST", b_ "other"); (b_ "X-Via", b_ "test")].
Proof. vm_compute. reflexivity. Qed.

(** ** The clean-up methods *)

Section Cleanup.

Import Interfaces.

(** The recursion through the sub-connections hands the exception back
    unchanged. *)
Lemma connection_cleanup_returns_exc (c : Connection) (exc : Exc) :
  snd (AsyncConnectionInterface._cleanup c exc) = exc.
Proof.
  revert c exc. fix IH 1.
  intros [id failed [| |sub]] exc; simpl; try reflexivity.
  specialize (IH sub exc).
  destruct (AsyncConnectionInterface._cleanup sub exc) as [sub' exc']. exact IH.
Qed.

(** The connection that could not connect is the one marked. *)
Example connection_cleanup_marks_innermost :
  AsyncConnectionInterface._cleanup Fixtures.bound_connection Fixtures.connect_error
  = (connection 1 false (Sub (connection 2 true IsNone)), Fixtures.connect_error).
Proof. reflexivity. Qed.

(** Nothing in interfaces.py binds the two names the clean-up evaluates. *)
Lemma interfaces_globals_unbound :
  interfaces_globals !! "AsyncShieldCancellation"%string = None
  /\ interfaces_globals !! "connection"%string = None.
Proof. split; vm_compute; reflexivity. Qed.

(** When no exception is being handled the clean-up returns at once. *)
Lemma cleanup_without_exception globals (pool : Pool) (request : nat) :
  AsyncRequestInterface._cleanup globals pool request None = (Ok tt, pool).
Proof. reflexivity. Qed.

(** With the shield class bound, an unbound status is taken out of the
    queue and the exception is raised again. *)
Lemma cleanup_pending_with_shield globals (pool : Pool) (request : nat)
    (exc : Exc) (status : RequestStatus) :
  globals !! "AsyncShieldCancellation"%string = Some ShieldClass ->
  last (List.filter (fun s => Nat.eqb (status_request s) request) (_requests pool))
  = Some status ->
  status_connection status = None ->
  AsyncRequestInterface._cleanup globals pool request (Some exc)
  = (Raise exc,
     mkPool (remove_status status (_requests pool)) (response_closed_calls pool)).
Proof.
  intros Hshield Hlast Hconn.
  unfold AsyncRequestInterface._cleanup, load_global.
  rewrite Hlast, Hshield, Hconn.
  assert (Hin : status_in status (_requests pool) = true).
  { unfold status_in. apply existsb_exists. exists status. split.
    - apply last_Some in Hlast as [l' Hl'].
      assert (H : In status (List.filter
                               (fun s => Nat.eqb (status_request s) request)
                               (_requests pool))).
      { rewrite Hl'. apply in_or_app. right. left. reflexivity. }
      apply filter_In in H. tauto.
    - unfold same_status. apply Nat.eqb_refl. }
  rewrite Hin. reflexivity.
Qed.

(** With the shield class bound, a bound status and an exception that is no
    [RuntimeError], the clean-up stops at the name [connection], which
    nothing binds: the connection is not told and [response_closed] is not
    called. *)
Lemma cleanup_bound_with_shield globals (pool : Pool) (request : nat)
    (exc : Exc) (status : RequestStatus) (c : Connection) :
  globals !! "AsyncShieldCancellation"%string = Some ShieldClass ->
  globals !! "connection"%string = None ->
  last (List.filter (fun s => Nat.eqb (status_request s) request) (_requests pool))
  = Some status ->
  status_connection status = Some c ->
  isinstance_RuntimeError exc = false ->
  AsyncRequestInterface._cleanup globals pool request (Some exc)
  = (Raise (mkExc NameError "connection"), pool).
Proof.
  intros Hshield Hname Hlast Hconn Hrt.
  unfold AsyncRequestInterface._cleanup, load_global.
  rewrite Hlast, Hshield, Hconn, Hrt, Hname. reflexivity.
Qed.

(** In interfaces.py as it stands, the clean-up of a request that has a
    status in the queue stops at the name [AsyncShieldCancellation]: the
    queue is left as it was and the exception at hand is not the one
    raised. *)
Lemma cleanup_stops_at_shield (pool : Pool) (request : nat) (exc : Exc)
    (status : RequestStatus) :
  last (List.filter (fun s => Nat.eqb (status_request s) request) (_requests pool))
  = Some status ->
  AsyncRequestInterface._cleanup interfaces_globals pool request (Some exc)
  = (Raise (mkExc NameError "AsyncShieldCancellation"), pool).
Proof.
  intros Hlast. unfold AsyncRequestInterface._cleanup. rewrite Hlast. reflexivity.
Qed.

End Cleanup.

(** C6, evaluated on the code: a request whose status is bound to a
    connection fails with a connect error.  The clean-up raises [NameError]
    instead of the connect error, the bound connection and its
    sub-connection are not told, [response_closed] is not called and the
    queue is unchanged; the same holds were the shield class imported, the
    name at fault then being [connection]; and a status that is not bound
    stays in the queue as well. *)
Theorem cleanup_raises_NameError :
  Interfaces.AsyncRequestInterface._cleanup Interfaces.interfaces_globals
    Fixtures.pool_with_bound_status 7 (Some Fixtures.connect_error)
  = (Raise (mkExc NameError "AsyncShieldCancellation"),
     Fixtures.pool_with_bound_status)
  /\ Interfaces.AsyncRequestInterface._cleanup Fixtures.globals_with_shield
       Fixtures.pool_with_bound_status 7 (Some Fixtures.connect_error)
     = (Raise (mkExc NameError "connection"), Fixtures.pool_with_bound_status)
  /\ Interfaces.AsyncRequestInterface._cleanup Interfaces.interfaces_globals
       Fixtures.pool_with_pending_status 7 (Some Fixtures.connect_error)
     = (Raise (mkExc NameError "AsyncShieldCancellation"),
        Fixtures.pool_with_pending_status).
Proof. repeat split; vm_compute; reflexivity. Qed.

Example cleanup_pending_with_shield_example :
  Interfaces.AsyncRequestInterface._cleanup Fixtures.globals_with_shield
    Fixtures.pool_with_pending_status 7 (Some Fixtures.connect_error)
  = (Raise Fixtures.connect_error,
     Interfaces.mkPool [Interfaces.mkStatus 9 6 None] []).
Proof. vm_compute. reflexivity. Qed.

(** ** More on [merge_headers] *)

Section MergeHeadersLaws.

Implicit Types (a b c d o : list Header) (h : Header) (name : bytes).

Lemma name_collides_app o o' h :
  name_collides (o ++ o') h = name_collides o h || name_collides o' h.
Proof. unfold name_collides. apply existsb_app. Qed.

(** Whether an entry collides depends on its lowercased name only. *)
Lemma name_collides_same_name o h h' :
  lower (fst h) = lower (fst h') -> name_collides o h = name_collides o h'.
Proof. intros E. unfold name_collides. rewrite E. reflexivity. Qed.

Lemma name_collides_has_name o h :
  name_collides o h = has_name (lower (fst h)) o.
Proof. reflexivity. Qed.

Lemma has_name_named name o :
  has_name name o = false -> named name o = [].
Proof.
  unfold has_name, named. induction o as [|x o IH]; [reflexivity|].
  simpl. intros H. apply orb_false_iff in H as [Hx Ho].
  rewrite Hx. apply IH. exact Ho.
Qed.

Lemma filter_filter_and (f g : Header -> bool) d :
  List.filter f (List.filter g d) = List.filter (fun h => g h && f h) d.
Proof.
  induction d as [|h d IH]; [reflexivity|].
  simpl. destruct (g h); simpl; [destruct (f h)|]; rewrite IH; reflexivity.
Qed.

(** The overrides that survive a later merge, together with the later
    overrides, collide with the same entries as both lists do. *)
Lemma name_collides_merged b c h :
  name_collides (List.filter (fun x => negb (name_collides c x)) b ++ c) h
  = name_collides b h || name_collides c h.
Proof.
  rewrite name_collides_app.
  destruct (name_collides c h) eqn:Ec; [rewrite !orb_true_r; reflexivity|].
  rewrite !orb_false_r.
  induction b as [|x b IH]; [reflexivity|].
  simpl. destruct (bool_decide (lower (fst x) = lower (fst h))) eqn:Ex.
  - apply bool_decide_eq_true in Ex.
    rewrite (name_collides_same_name c x h Ex), Ec. simpl.
    rewrite bool_decide_eq_true_2 by exact Ex. reflexivity.
  - destruct (name_collides c x); simpl; rewrite ?Ex; exact IH.
Qed.

End MergeHeadersLaws.

(** X1: merging is associative: merging [a] under [b] and the result under
    [c] gives the same list as merging [a] under the merge of [b] and [c]. *)
Theorem merge_headers_assoc (a b c : option (list Header)) :
  merge_headers (Some (merge_headers a b)) c
  = merge_headers a (Some (merge_headers b c)).
Proof.
  rewrite !merge_headers_unfold. cbn [or_empty].
  rewrite List.filter_app, filter_filter_and, <- app_assoc.
  f_equal. apply List.filter_ext. intros h.
  rewrite name_collides_merged, negb_orb. reflexivity.
Qed.

Lemma named_merge_headers (d o : option (list Header)) (name : bytes) :
  named name (merge_headers d o)
  = if has_name name (or_empty o) then named name (or_empty o)
    else named name (or_empty d).
Proof.
  rewrite merge_headers_unfold. unfold named at 1.
  rewrite List.filter_app, filter_filter_and. fold (named name (or_empty o)).
  destruct (has_name name (or_empty o)) eqn:E.
  - rewrite (List.filter_ext_in _ (fun _ => false)), filter_false; [reflexivity|].
    intros h _.
    destruct (bool_decide (lower (fst h) = name)) eqn:Eh;
      [|apply andb_false_r].
    apply bool_decide_eq_true in Eh.
    rewrite name_collides_has_name, Eh, E. reflexivity.
  - rewrite (has_name_named name _ E), app_nil_r.
    apply List.filter_ext_in. intros h _.
    destruct (bool_decide (lower (fst h) = name)) eqn:Eh;
      [|apply andb_false_r].
    apply bool_decide_eq_true in Eh.
    rewrite name_collides_has_name, Eh, E. reflexivity.
Qed.

(** X2: a look-up by lowercased name in the merged list sees the override
    entries of that name when there is one, and the default entries of that
    name otherwise; entries of the two lists never mix under one name. *)
Theorem merge_headers_named (d o : option (list Header)) (name : bytes) :
  named name (merge_headers d o)
  = if has_name name (or_empty o) then named name (or_empty o)
    else named name (or_empty d).
Proof. apply named_merge_headers. Qed.

(** X3: the edge cases: without overrides ([None] or the empty list) the
    defaults come back unchanged, duplicates included; without defaults the
    overrides do; and a list merged with itself is that list. *)
Theorem merge_headers_identities (l : list Header) :
  merge_headers (Some l) None = l
  /\ merge_headers (Some l) (Some []) = l
  /\ merge_headers None (Some l) = l
  /\ merge_headers (Some []) (Some l) = l
  /\ merge_headers (Some l) (Some l) = l.
Proof.
  assert (Hall : List.filter (fun h => negb (name_collides [] h)) l = l).
  { induction l as [|h l IH]; [reflexivity|].
    cbn [List.filter name_collides existsb negb]. f_equal. exact IH. }
  rewrite !merge_headers_unfold. unfold or_empty.
  rewrite Hall, app_nil_r.
  repeat split; try reflexivity.
  rewrite (filter_overrides_nil l l) by apply incl_refl. reflexivity.
Qed.

(** ** [build_auth_header] *)

Section Base64Facts.

Import Base64Inverse.

Lemma byte_forall_spec (P : byte -> bool) :
  byte_forall P = true -> forall c, P c = true.
Proof.
  unfold byte_forall. rewrite forallb_forall. intros H c.
  specialize (H (Byte.to_N c)). rewrite Byte.of_to_N in H. apply H.
  apply in_map_iff. exists (N.to_nat (Byte.to_N c)). split.
  - apply N2Nat.id.
  - apply in_seq. pose proof (Byte.to_N_bounded c). lia.
Qed.

Lemma sextet_forall_spec (P : N -> bool) :
  sextet_forall P = true -> forall n, (n < 64)%N -> P n = true.
Proof.
  unfold sextet_forall. rewrite forallb_forall. intros H n Hn. apply H.
  apply in_map_iff. exists (N.to_nat n). split; [apply N2Nat.id|].
  apply in_seq. lia.
Qed.

(** Three bytes in a row are the unit of the encoding. *)
Lemma bytes_ind3 (P : bytes -> Prop) :
  P [] -> (forall x, P [x]) -> (forall x y, P [x; y]) ->
  (forall x y z rest, P rest -> P (x :: y :: z :: rest)) ->
  forall s, P s.
Proof.
  intros H0 H1 H2 H3. fix IH 1.
  intros [|x [|y [|z rest]]]; [exact H0 | apply H1 | apply H2 |].
  apply H3. apply IH.
Qed.

Lemma sextet_index_sextet n :
  (n < 64)%N -> sextet_index (sextet n) = n /\ is_pad (sextet n) = false.
Proof.
  intros Hn.
  pose proof (sextet_forall_spec
                (fun n => (sextet_index (sextet n) =? n)%N
                          && negb (is_pad (sextet n)))
                ltac:(vm_compute; reflexivity) n Hn) as H.
  apply andb_true_iff in H as [H1 H2].
  apply N.eqb_eq in H1. apply negb_true_iff in H2. auto.
Qed.

Lemma check_first_all x y : check_first x y = true.
Proof.
  revert y. apply byte_forall_spec. revert x.
  apply (byte_forall_spec (fun x => byte_forall (check_first x))).
  vm_compute. reflexivity.
Qed.

Lemma check_third_all y z : check_third y z = true.
Proof.
  revert z. apply byte_forall_spec. revert y.
  apply (byte_forall_spec (fun y => byte_forall (check_third y))).
  vm_compute. reflexivity.
Qed.

Lemma check_first_last_all x : check_first_last x = true.
Proof. revert x. apply byte_forall_spec. vm_compute. reflexivity. Qed.

Lemma check_second_all y : check_second y = true.
Proof. revert y. apply byte_forall_spec. vm_compute. reflexivity. Qed.

Lemma first_byte_group x y :
  first_byte (group1 x) (group2 x y) = x
  /\ (group1 x < 64)%N /\ (group2 x y < 64)%N
  /\ N.land (group2 x y) 15 = N.shiftr (Byte.to_N y) 4.
Proof.
  pose proof (check_first_all x y) as H. unfold check_first in H.
  repeat (apply andb_true_iff in H as [H ?]).
  repeat split;
    try (apply N.ltb_lt; assumption);
    try (apply N.eqb_eq; assumption).
  eapply bool_decide_eq_true_1; eassumption.
Qed.

Lemma first_byte_group_last x :
  first_byte (group1 x) (group2_last x) = x
  /\ (group1 x < 64)%N /\ (group2_last x < 64)%N.
Proof.
  pose proof (check_first_last_all x) as H. unfold check_first_last in H.
  repeat (apply andb_true_iff in H as [H ?]).
  repeat split; try (apply N.ltb_lt; assumption).
  eapply bool_decide_eq_true_1; eassumption.
Qed.

Lemma third_byte_group y z :
  third_byte (group3 y z) (group4 z) = z
  /\ (group3 y z < 64)%N /\ (group4 z < 64)%N
  /\ N.shiftr (group3 y z) 2 = N.land (Byte.to_N y) 15.
Proof.
  pose proof (check_third_all y z) as H. unfold check_third in H.
  repeat (apply andb_true_iff in H as [H ?]).
  repeat split;
    try (apply N.ltb_lt; assumption);
    try (apply N.eqb_eq; assumption).
  eapply bool_decide_eq_true_1; eassumption.
Qed.

Lemma second_byte_parts y :
  byte_of (N.lor (N.shiftl (N.shiftr (Byte.to_N y) 4) 4)
                 (N.land (Byte.to_N y) 15)) = y
  /\ (group3_last y < 64)%N
  /\ N.shiftr (group3_last y) 2 = N.land (Byte.to_N y) 15.
Proof.
  pose proof (check_second_all y) as H. unfold check_second in H.
  repeat (apply andb_true_iff in H as [H ?]).
  repeat split;
    try (apply N.ltb_lt; assumption);
    try (apply N.eqb_eq; assumption).
  eapply bool_decide_eq_true_1; eassumption.
Qed.

Lemma b64encode_group x y z rest :
  b64encode (x :: y :: z :: rest)
  = sextet (group1 x) :: sextet (group2 x y) :: sextet (group3 y z)
    :: sextet (group4 z) :: b64encode rest.
Proof. reflexivity. Qed.

Lemma b64encode_one x :
  b64encode [x]
  = [sextet (group1 x); sextet (group2_last x); "="%byte; "="%byte].
Proof. reflexivity. Qed.

Lemma b64encode_two x y :
  b64encode [x; y]
  = [sextet (group1 x); sextet (group2 x y); sextet (group3_last y); "="%byte].
Proof. reflexivity. Qed.

Lemma unbase64_group c1 c2 c3 c4 rest :
  unbase64 (c1 :: c2 :: c3 :: c4 :: rest)
  = if is_pad c3 then [first_byte (sextet_index c1) (sextet_index c2)]
    else if is_pad c4
         then [first_byte (sextet_index c1) (sextet_index c2);
               second_byte (sextet_index c2) (sextet_index c3)]
         else first_byte (sextet_index c1) (sextet_index c2)
              :: second_byte (sextet_index c2) (sextet_index c3)
              :: third_byte (sextet_index c3) (sextet_index c4)
              :: unbase64 rest.
Proof. reflexivity. Qed.

(** Reading an encoded text back gives the bytes that were encoded. *)
Lemma unbase64_b64encode (s : bytes) : unbase64 (b64encode s) = s.
Proof.
  induction s as [|x|x y|x y z rest IH] using bytes_ind3.
  - reflexivity.
  - rewrite b64encode_one, unbase64_group.
    destruct (first_byte_group_last x) as (Hx & H1 & H2).
    destruct (sextet_index_sextet _ H1) as [E1 _].
    destruct (sextet_index_sextet _ H2) as [E2 _].
    change (is_pad "="%byte) with true. cbv iota.
    rewrite E1, E2, Hx. reflexivity.
  - rewrite b64encode_two, unbase64_group.
    destruct (first_byte_group x y) as (Hx & H1 & H2 & Hy1).
    destruct (second_byte_parts y) as (Hy & H3 & Hy2).
    destruct (sextet_index_sextet _ H1) as [E1 _].
    destruct (sextet_index_sextet _ H2) as [E2 _].
    destruct (sextet_index_sextet _ H3) as [E3 P3].
    rewrite P3. change (is_pad "="%byte) with true. cbv iota.
    rewrite E1, E2, E3, Hx. unfold second_byte.
    rewrite Hy1, Hy2, Hy. reflexivity.
  - rewrite b64encode_group, unbase64_group.
    destruct (first_byte_group x y) as (Hx & H1 & H2 & Hy1).
    destruct (third_byte_group y z) as (Hz & H3 & H4 & Hy2).
    destruct (second_byte_parts y) as (Hy & _ & _).
    destruct (sextet_index_sextet _ H1) as [E1 _].
    destruct (sextet_index_sextet _ H2) as [E2 _].
    destruct (sextet_index_sextet _ H3) as [E3 P3].
    destruct (sextet_index_sextet _ H4) as [E4 P4].
    rewrite P3, P4, E1, E2, E3, E4, Hx, Hz, IH. unfold second_byte.
    rewrite Hy1, Hy2, Hy. reflexivity.
Qed.

Lemma b64encode_inj (s s' : bytes) : b64encode s = b64encode s' -> s = s'.
Proof.
  intros H. rewrite <- (unbase64_b64encode s), <- (unbase64_b64encode s'), H.
  reflexivity.
Qed.

(** Four characters for every three bytes begun. *)
Lemma b64encode_length (s : bytes) :
  length (b64encode s) = (4 * ((length s + 2) / 3))%nat.
Proof.
  induction s as [|x|x y|x y z rest IH] using bytes_ind3; try reflexivity.
  rewrite b64encode_group. cbn [length]. rewrite IH.
  replace (S (S (S (length rest))) + 2)%nat with (1 * 3 + (length rest + 2))%nat by lia.
  rewrite Nat.div_add_l by discriminate. lia.
Qed.

(** Every character is a letter, a digit, [+], [/] or the padding [=]. *)
Lemma b64encode_alphabet (s : bytes) :
  Forall (fun c => In c (alphabet ++ ["="%byte])) (b64encode s).
Proof.
  assert (Hsextet : forall n, In (sextet n) (alphabet ++ ["="%byte])).
  { intros n. unfold sextet.
    destruct (nth_in_or_default (N.to_nat n) alphabet "="%byte) as [H|H].
    - apply in_or_app. left. exact H.
    - rewrite H. apply in_or_app. right. left. reflexivity. }
  assert (Hpad : In "="%byte (alphabet ++ ["="%byte])).
  { apply in_or_app. right. left. reflexivity. }
  induction s as [|x|x y|x y z rest IH] using bytes_ind3.
  - apply List.Forall_nil.
  - rewrite b64encode_one.
    repeat (apply List.Forall_cons; [solve [auto]|]). apply List.Forall_nil.
  - rewrite b64encode_two.
    repeat (apply List.Forall_cons; [solve [auto]|]). apply List.Forall_nil.
  - rewrite b64encode_group.
    repeat (apply List.Forall_cons; [solve [auto]|]). exact IH.
Qed.

End Base64Facts.

Lemma split_at_colon (u u' p p' : bytes) :
  ~ In ":"%byte u -> ~ In ":"%byte u' ->
  u ++ ":"%byte :: p = u' ++ ":"%byte :: p' -> u = u' /\ p = p'.
Proof.
  revert u'. induction u as [|c u IH]; intros [|c' u'] Hu Hu' E; simpl in E.
  - injection E as ->. auto.
  - injection E as E1 E2. subst c'. exfalso. apply Hu'. left. reflexivity.
  - injection E as E1 E2. subst c. exfalso. apply Hu. left. reflexivity.
  - injection E as E1 E2. subst c'.
    destruct (IH u') as [-> ->]; auto.
    + intros H. apply Hu. right. exact H.
    + intros H. apply Hu'. right. exact H.
Qed.

(** X4: whatever bytes the credentials hold, the header value is
    [b"Basic "] followed by four characters for every three bytes begun of
    [username:password]; each of these characters is a letter, a digit, [+],
    [/] or [=], so the value is ASCII and holds no carriage return or line
    feed. *)
Theorem build_auth_header_shape (username password : bytes) :
  exists token,
    build_auth_header username password = b_ "Basic " ++ token
    /\ length token
       = (4 * ((length username + length password + 3) / 3))%nat
    /\ Forall (fun c => In c (alphabet ++ ["="%byte])) token
    /\ forallb is_ascii_byte (build_auth_header username password) = true
    /\ ~ In "013"%byte (build_auth_header username password)
    /\ ~ In "010"%byte (build_auth_header username password).
Proof.
  exists (b64encode (username ++ b_ ":" ++ password)).
  pose proof (b64encode_alphabet (username ++ b_ ":" ++ password)) as Halpha.
  assert (Hall : Forall (fun c => In c (b_ "Basic " ++ alphabet ++ ["="%byte]))
                        (build_auth_header username password)).
  { unfold build_auth_header. cbv zeta. apply Forall_app. split.
    - apply List.Forall_forall. intros c Hc. apply in_or_app. left. exact Hc.
    - eapply List.Forall_impl; [|exact Halpha].
      intros c Hc. apply in_or_app. right. exact Hc. }
  split; [reflexivity|]. split; [|split; [exact Halpha|]].
  - rewrite b64encode_length, !length_app.
    change (length (b_ ":")) with 1%nat.
    replace (length username + (1 + length password) + 2)%nat
      with (length username + length password + 3)%nat by lia.
    reflexivity.
  - rewrite List.Forall_forall in Hall. repeat split.
    + apply forallb_forall. intros c Hc. apply Hall in Hc. revert c Hc.
      apply List.Forall_forall. vm_compute.
      repeat (apply List.Forall_cons; [reflexivity|]). apply List.Forall_nil.
    + intros Hin. apply Hall in Hin. revert Hin. vm_compute.
      intros H. repeat (destruct H as [H|H]; [discriminate H|]). exact H.
    + intros Hin. apply Hall in Hin. revert Hin. vm_compute.
      intros H. repeat (destruct H as [H|H]; [discriminate H|]). exact H.
Qed.

(** X5: the header value determines [username:password]; when neither user
    name holds a colon, equal header values mean equal user names and equal
    passwords. *)
Theorem build_auth_header_inj (username password username' password' : bytes) :
  build_auth_header username password = build_auth_header username' password' ->
  username ++ b_ ":" ++ password = username' ++ b_ ":" ++ password'
  /\ (~ In ":"%byte username -> ~ In ":"%byte username' ->
      username = username' /\ password = password').
Proof.
  unfold build_auth_header. cbv zeta. intros E.
  apply app_inv_head in E. apply b64encode_inj in E.
  split; [exact E|].
  intros Hu Hu'. apply (split_at_colon _ _ _ _ Hu Hu' E).
Qed.

Lemma build_auth_header_inj_witness :
  b_ "user" ++ b_ ":" ++ b_ "pass" = b_ "user" ++ b_ ":" ++ b_ "pass".
Proof.
  apply (build_auth_header_inj (b_ "user") (b_ "pass") (b_ "user") (b_ "pass")).
  reflexivity.
Defined.

(** A colon in the user name is not told from the separator. *)
Example build_auth_header_colon :
  build_auth_header (b_ "a:b") (b_ "c") = build_auth_header (b_ "a") (b_ "b:c").
Proof. reflexivity. Qed.

(** ** More on [HTTPProxy.create_connection] *)

(** X6: the connection made for an origin handles that origin and no
    other, in every proxy mode. *)
Theorem create_connection_can_handle (URL_origin : URL -> Origin)
    (self : HTTPProxy.t) (origin other : Origin) :
  can_handle_request (HTTPProxy.create_connection URL_origin self origin) origin
  = true
  /\ (can_handle_request (HTTPProxy.create_connection URL_origin self origin) other
      = true <-> other = origin).
Proof.
  unfold HTTPProxy.create_connection.
  destruct (bool_decide (HTTPProxy._proxy_mode self = FORWARD)
            || bool_decide (HTTPProxy._proxy_mode self = DEFAULT)
               && bool_decide (scheme origin = b_ "http"));
    cbn [can_handle_request];
    unfold ForwardHTTPConnectionMethods.can_handle_request,
      TunnelHTTPConnectionMethods.can_handle_request;
    cbn [ForwardHTTPConnection.__init__ ForwardHTTPConnection._remote_origin
         TunnelHTTPConnection.__init__ TunnelHTTPConnection._remote_origin];
    (split; [apply bool_decide_eq_true_2; reflexivity | apply bool_decide_eq_true]).
Qed.

(** X7: in every proxy mode the new connection wraps a connection to the
    proxy's origin, never to the destination, with the pool's keep-alive
    expiry and backend and without socket options; it carries the pool's
    proxy headers and is bound to the origin asked for. *)
Theorem create_connection_dials_proxy (URL_origin : URL -> Origin)
    (self : HTTPProxy.t) (origin : Origin) :
  let c := HTTPProxy.create_connection URL_origin self origin in
  wrapped_connection c
  = HTTPConnection (URL_origin (HTTPProxy._proxy_url self))
      (HTTPProxy.pool_keepalive_expiry (HTTPProxy.super self))
      (HTTPProxy.pool_network_backend (HTTPProxy.super self))
      None
  /\ proxy_headers_of c = HTTPProxy._proxy_headers self
  /\ remote_origin_of c = origin.
Proof.
  unfold HTTPProxy.create_connection.
  destruct (bool_decide (HTTPProxy._proxy_mode self = FORWARD)
            || bool_decide (HTTPProxy._proxy_mode self = DEFAULT)
               && bool_decide (scheme origin = b_ "http"));
    repeat split; reflexivity.
Qed.

(** ** Proxy authentication, end to end *)

(** X8: a tunnel made by a pool with [proxy_auth] sends, in its CONNECT
    request, the generated [Host] and [Accept] (each unless the caller's
    proxy headers name it), then the generated [Proxy-Authorization], then
    the caller's proxy headers. *)
Theorem tunnel_connect_carries_proxy_auth (URL_origin : URL -> Origin)
    (super_init : HTTPProxy.ConnectionPool) (proxy_url : URL)
    (username password : bytes) (proxy_headers : option (list Header))
    (ssl_context : option SSLContext) (proxy_mode : ProxyMode)
    (origin : Origin) (c : TunnelHTTPConnection.t) (request : Request) :
  HTTPProxy.create_connection URL_origin
    (HTTPProxy.__init__ super_init proxy_url (Some (username, password))
       proxy_headers ssl_context proxy_mode)
    origin = Tunnel c ->
  let target := host origin ++ b_ ":" ++ bytes_of_int (port origin) in
  headers (TunnelHTTPConnection.connect_request c request)
  = (if has_name (b_ "host") (or_empty proxy_headers) then []
     else [(b_ "Host", target)])
    ++ (if has_name (b_ "accept") (or_empty proxy_headers) then []
        else [(b_ "Accept", b_ "*/*")])
    ++ (b_ "Proxy-Authorization", build_auth_header username password)
       :: or_empty proxy_headers.
Proof.
  unfold HTTPProxy.create_connection.
  destruct (bool_decide (HTTPProxy._proxy_mode _ = FORWARD)
            || bool_decide (HTTPProxy._proxy_mode _ = DEFAULT)
               && bool_decide (scheme origin = b_ "http")); [discriminate|].
  intros E. injection E as <-. cbv zeta.
  set (target := host origin ++ b_ ":" ++ bytes_of_int (port origin)).
  unfold TunnelHTTPConnection.connect_request, Request_new. cbn [headers].
  unfold TunnelHTTPConnection.connect_headers. rewrite merge_headers_unfold.
  cbn [or_empty List.filter TunnelHTTPConnection._proxy_headers
       TunnelHTTPConnection.__init__ HTTPProxy._proxy_headers HTTPProxy.__init__
       app].
  unfold enforce_bytes.
  change (enforce_headers proxy_headers) with (or_empty proxy_headers).
  unfold enforce_headers.
  change (TunnelHTTPConnection.target _) with target.
  set (auth := (b_ "Proxy-Authorization", build_auth_header username password)).
  assert (Hhost : forall v, name_collides (auth :: or_empty proxy_headers)
                              (b_ "Host", v)
                            = has_name (b_ "host") (or_empty proxy_headers))
    by reflexivity.
  assert (Haccept : forall v, name_collides (auth :: or_empty proxy_headers)
                                (b_ "Accept", v)
                              = has_name (b_ "accept") (or_empty proxy_headers))
    by reflexivity.
  rewrite !Hhost, !Haccept.
  destruct (has_name (b_ "host") (or_empty proxy_headers));
    destruct (has_name (b_ "accept") (or_empty proxy_headers)); reflexivity.
Qed.

Lemma tunnel_connect_carries_proxy_auth_witness :
  headers
    (TunnelHTTPConnection.connect_request
       (TunnelHTTPConnection.__init__ Fixtures.proxy_origin Fixtures.https_origin
          None
          (Some [(b_ "Proxy-Authorization", build_auth_header (b_ "user") (b_ "pass"))])
          None true false None None)
       Fixtures.get_request)
  = [(b_ "Host", b_ "s:443"); (b_ "Accept", b_ "*/*");
     (b_ "Proxy-Authorization", b_ "Basic dXNlcjpwYXNz")].
Proof.
  apply (tunnel_connect_carries_proxy_auth Fixtures.origin_of
           (Fixtures.pool_fields true false) Fixtures.proxy_url
           (b_ "user") (b_ "pass") None None DEFAULT Fixtures.https_origin).
  reflexivity.
Defined.

(** X9: in a forwarding connection made by a pool with [proxy_auth], a
    request that brings a header named [Proxy-Authorization], in any case,
    replaces the pool's: the forwarded request then holds the request's
    entries of that name only; otherwise it holds the generated entry, ahead
    of any the caller put in the proxy headers. *)
Theorem forward_request_proxy_auth (URL_origin : URL -> Origin)
    (super_init : HTTPProxy.ConnectionPool) (proxy_url : URL)
    (username password : bytes) (proxy_headers : option (list Header))
    (ssl_context : option SSLContext) (proxy_mode : ProxyMode)
    (origin : Origin) (c : ForwardHTTPConnection.t) (request : Request) :
  HTTPProxy.create_connection URL_origin
    (HTTPProxy.__init__ super_init proxy_url (Some (username, password))
       proxy_headers ssl_context proxy_mode)
    origin = Forward c ->
  let name := b_ "proxy-authorization" in
  named name (headers (ForwardHTTPConnection.proxy_request c request))
  = if has_name name (headers request) then named name (headers request)
    else (b_ "Proxy-Authorization", build_auth_header username password)
         :: named name (or_empty proxy_headers).
Proof.
  unfold HTTPProxy.create_connection.
  destruct (bool_decide (HTTPProxy._proxy_mode _ = FORWARD)
            || bool_decide (HTTPProxy._proxy_mode _ = DEFAULT)
               && bool_decide (scheme origin = b_ "http")); [|discriminate].
  intros E. injection E as <-. cbv zeta.
  unfold ForwardHTTPConnection.proxy_request, Request_new. cbn [headers].
  rewrite named_merge_headers. cbn [or_empty].
  destruct (has_name (b_ "proxy-authorization") (headers request)); reflexivity.
Qed.

Lemma forward_request_proxy_auth_witness :
  named (b_ "proxy-authorization")
    (headers
       (ForwardHTTPConnection.proxy_request
          (ForwardHTTPConnection.__init__ Fixtures.proxy_origin Fixtures.http_origin
             (Some [(b_ "Proxy-Authorization", build_auth_header (b_ "user") (b_ "pass"))])
             None None None)
          Fixtures.get_plain_request))
  = [(b_ "Proxy-Authorization", b_ "Basic dXNlcjpwYXNz")].
Proof.
  apply (forward_request_proxy_auth Fixtures.origin_of
           (Fixtures.pool_fields true false) Fixtures.proxy_url
           (b_ "user") (b_ "pass") None None DEFAULT Fixtures.http_origin).
  reflexivity.
Defined.

(** ** The tunnel as a state machine *)

Section TunnelStates.

Import TunnelHTTPConnection TunnelHTTPConnectionMethods.

Variable w : World.

Implicit Types (request : Request) (r : Run t) (timeout : option Seconds).

Lemma same_configuration_refl (a : t) : same_configuration a a.
Proof. repeat split. Qed.

Lemma same_configuration_offered (a : t) :
  same_configuration a (with_offered_context w a).
Proof.
  unfold same_configuration, with_offered_context, offered_context,
    upgrade_context.
  cbn. repeat split. destruct (_ssl_context a); reflexivity.
Qed.

(** What the TLS upgrade does to the tunnel: the configuration stays, the
    connection and the flag are not touched, and calls are only added. *)
Lemma upgrade_to_tls_outcome request (raw : NetworkStream) timeout r :
  let out := upgrade_to_tls w request raw timeout r in
  self (snd out) = with_offered_context w (self r)
  /\ exists l, calls (snd out) = calls r ++ l.
Proof.
  cbv zeta. split; [|apply upgrade_to_tls_appends].
  rewrite upgrade_to_tls_run. cbv zeta.
  destruct (decode_ascii (host (_remote_origin (self r)))) as [hn|];
    [|reflexivity].
  match goal with
  | |- context [trace_result w request "start_tls" (TraceStarted ?c ?h ?t)] =>
      destruct (trace_result w request "start_tls" (TraceStarted c h t))
  end; [|reflexivity].
  match goal with
  | |- context [stream_start_tls w ?s ?c ?h ?t] =>
      destruct (stream_start_tls w s c h t)
  end; reflexivity.
Qed.

(** What a handshake can do to the tunnel: succeed and leave it connected,
    or raise and leave connection and flag as they were; the configuration
    stays in both cases and calls are only added. *)
Lemma connect_outcome request timeout r :
  let out := connect w request timeout r in
  same_configuration (self r) (self (snd out))
  /\ (exists l, calls (snd out) = calls r ++ l)
  /\ match fst out with
     | Ok _ => _connected (self (snd out)) = true
     | Raise _ =>
         _connected (self (snd out)) = _connected (self r)
         /\ _connection (self (snd out)) = _connection (self r)
     end.
Proof.
  cbv zeta. rewrite connect_run. cbv zeta.
  destruct (connection_handle_request w (_connection (self r))
              (connect_request (self r) request)) as [response|e].
  2:{ cbn. split; [apply same_configuration_refl|]. split; eauto. }
  destruct ((status response <? 200) || (status response >? 299)).
  { destruct (reason_str response); cbn;
      (split; [apply same_configuration_refl|]); split; eauto. }
  destruct (response_network_stream response) as [raw|e].
  2:{ cbn. split; [apply same_configuration_refl|]. split; eauto. }
  destruct (bool_decide (scheme (_remote_origin (self r)) = b_ "https")).
  2:{ cbn. split; [repeat split|]. split; eauto. }
  match goal with
  | |- context [upgrade_to_tls w request raw timeout ?r1] =>
      pose proof (upgrade_to_tls_outcome request raw timeout r1) as Hup;
      cbv zeta in Hup;
      destruct (upgrade_to_tls w request raw timeout r1)
        as [[[stream negotiated]|e] r2]
  end; cbn [fst snd self calls] in *; destruct Hup as (Hself & l & Hl).
  - split; [|split; [rewrite Hl, <- app_assoc; eauto | reflexivity]].
    pose proof (same_configuration_offered (self r)) as H.
    rewrite Hself. unfold same_configuration in *. cbn. exact H.
  - rewrite Hself. split; [apply same_configuration_offered|].
    split; [rewrite Hl, <- app_assoc; eauto|]. split; reflexivity.
Qed.

(** X10: a handshake that raises, for whatever reason, leaves the tunnel
    not connected and wrapping the proxy connection it had, with its
    configuration; only the protocol list of a configured SSL context may
    have been set. *)
Theorem connect_failure_keeps_tunnel request timeout r e r' :
  connect w request timeout r = (Raise e, r') ->
  _connected (self r') = _connected (self r)
  /\ _connection (self r') = _connection (self r)
  /\ same_configuration (self r) (self r').
Proof.
  intros Hrun.
  pose proof (connect_outcome request timeout r) as H. cbv zeta in H.
  rewrite Hrun in H. cbn [fst snd] in H.
  destruct H as (Hcfg & _ & Hc & Hconn). auto.
Qed.

(** X11: [handle_request] never changes the configuration of the tunnel,
    so the answer of [can_handle_request] is the same before and after; a
    connected tunnel stays connected; and the calls already made stay, in
    order. *)
Theorem handle_request_keeps_configuration request r (origin : Origin) :
  let r' := snd (handle_request w request r) in
  same_configuration (self r) (self r')
  /\ can_handle_request (self r') origin = can_handle_request (self r) origin
  /\ implb (_connected (self r)) (_connected (self r')) = true
  /\ exists l, calls r' = calls r ++ l.
Proof.
  cbv zeta.
  assert (H : same_configuration (self r) (self (snd (handle_request w request r)))
              /\ implb (_connected (self r))
                       (_connected (self (snd (handle_request w request r)))) = true
              /\ exists l, calls (snd (handle_request w request r)) = calls r ++ l).
  { rewrite handle_request_run.
    destruct (connect_timeout request) as [timeout|e].
    2:{ cbn. split; [apply same_configuration_refl|].
        split; [destruct (_connected (self r)); reflexivity|].
        exists []. rewrite app_nil_r. reflexivity. }
    cbv zeta. destruct (_connected (self r)) eqn:Ec.
    - cbn [snd self calls]. split; [apply same_configuration_refl|].
      split; [rewrite Ec; reflexivity | eauto].
    - pose proof (connect_outcome request timeout r) as Hout. cbv zeta in Hout.
      destruct (connect w request timeout r) as [[u|e] r1];
        cbn [fst snd self calls] in *;
        destruct Hout as (Hcfg & [l Hl] & _);
        (split; [exact Hcfg|]); (split; [reflexivity|]).
      + rewrite Hl, <- app_assoc. eauto.
      + eauto. }
  destruct H as (Hcfg & Hc & Hl).
  split; [exact Hcfg|]. split; [|split; assumption].
  unfold can_handle_request. destruct Hcfg as (_ & Hro & _). rewrite Hro.
  reflexivity.
Qed.

Lemma handle_requests_cons request (rest : list Request) r :
  handle_requests w (request :: rest) r
  = match handle_request w request r with
    | (Raise e, r1) => (Raise e, r1)
    | (Ok response, r1) =>
        match handle_requests w rest r1 with
        | (Raise e, r2) => (Raise e, r2)
        | (Ok responses, r2) => (Ok (response :: responses), r2)
        end
    end.
Proof.
  cbn [handle_requests]. unfold bind, ret.
  destruct (handle_request w request r) as [[response|e] r1]; [|reflexivity].
  destruct (handle_requests w rest r1) as [[responses|e] r2]; reflexivity.
Qed.

(** X12: on a connected tunnel, requests handled one after the other all go
    to the wrapped connection; no CONNECT request, TLS upgrade or close is
    ever made again and the tunnel is left as it was. *)
Theorem connected_tunnel_only_forwards (requests : list Request) r :
  _connected (self r) = true ->
  let out := handle_requests w requests r in
  self (snd out) = self r
  /\ exists k,
       calls (snd out)
       = calls r
         ++ map (CallHandleRequest (_connection (self r))) (firstn k requests).
Proof.
  intros Hc. cbv zeta. revert r Hc.
  induction requests as [|request rest IH]; intros r Hc.
  - cbn. split; [reflexivity|]. exists 0%nat. cbn. rewrite app_nil_r. reflexivity.
  - rewrite handle_requests_cons, handle_request_run.
    destruct (connect_timeout request) as [timeout|e].
    2:{ cbn. split; [reflexivity|]. exists 0%nat. cbn.
        rewrite app_nil_r. reflexivity. }
    cbv zeta. rewrite Hc.
    destruct (connection_handle_request w (_connection (self r)) request)
      as [response|e].
    2:{ cbn. split; [reflexivity|]. exists 1%nat. reflexivity. }
    set (r1 := mkRun (self r)
                 (calls r ++ [CallHandleRequest (_connection (self r)) request])).
    destruct (IH r1 Hc) as (Hself & k & Hk).
    destruct (handle_requests w rest r1) as [[responses|e] r2];
      subst r1; cbn [fst snd self calls] in *;
      (split; [exact Hself|]); exists (S k);
      rewrite Hk; cbn [firstn map]; rewrite <- app_assoc; reflexivity.
Qed.

(** X13: when the proxy connection itself raises on the CONNECT request,
    that exception leaves [handle_request] as it is; nothing else is called
    (the proxy connection is not closed) and the tunnel is unchanged. *)
Theorem connect_error_propagates request timeout r e :
  _connected (self r) = false ->
  connect_timeout request = Ok timeout ->
  connection_handle_request w (_connection (self r))
    (connect_request (self r) request) = Raise e ->
  handle_request w request r
  = (Raise e,
     mkRun (self r)
       (calls r ++ [CallHandleRequest (_connection (self r))
                      (connect_request (self r) request)])).
Proof.
  intros Hc Ht He.
  rewrite handle_request_run, Ht, Hc, connect_run, He. reflexivity.
Qed.

(** X14: when the proxy accepts the tunnel but the response carries no
    [network_stream] extension, [handle_request] raises [KeyError]; the
    proxy connection is not closed and the tunnel stays not connected. *)
Theorem connect_without_network_stream request timeout r response :
  _connected (self r) = false ->
  connect_timeout request = Ok timeout ->
  connection_handle_request w (_connection (self r))
    (connect_request (self r) request) = Ok response ->
  200 <= status response < 300 ->
  response_extensions response !! "network_stream"%string = None ->
  handle_request w request r
  = (Raise (mkExc KeyError "network_stream"),
     mkRun (self r)
       (calls r ++ [CallHandleRequest (_connection (self r))
                      (connect_request (self r) request)])).
Proof.
  intros Hc Ht Hresp Hstatus Hext.
  rewrite handle_request_run, Ht, Hc, connect_run, Hresp. cbv zeta.
  apply status_refused_iff in Hstatus. rewrite Hstatus.
  unfold response_network_stream. rewrite Hext. reflexivity.
Qed.

(** X15: with an https destination whose host is not ASCII, the handshake
    raises [UnicodeDecodeError] after the protocols have been set on the
    context and before any TLS upgrade: [start_tls] is not called, the
    proxy connection is not closed, and the tunnel stays not connected. *)
Theorem connect_non_ascii_host request timeout r response raw :
  _connected (self r) = false ->
  connect_timeout request = Ok timeout ->
  connection_handle_request w (_connection (self r))
    (connect_request (self r) request) = Ok response ->
  200 <= status response < 300 ->
  response_network_stream response = Ok raw ->
  scheme (_remote_origin (self r)) = b_ "https" ->
  decode_ascii (host (_remote_origin (self r))) = None ->
  handle_request w request r
  = (Raise (mkExc UnicodeDecodeError "ascii"),
     mkRun (with_offered_context w (self r))
       (calls r
        ++ [CallHandleRequest (_connection (self r))
              (connect_request (self r) request);
            CallSetAlpnProtocols (upgrade_context w (self r))
              (offered_alpn_protocols (self r))]))
  /\ _connected (with_offered_context w (self r)) = false.
Proof.
  intros Hc Ht Hresp Hstatus Hraw Hs Hhost. split; [|exact Hc].
  rewrite handle_request_run, Ht, Hc, connect_run, Hresp. cbv zeta.
  apply status_refused_iff in Hstatus. rewrite Hstatus, Hraw.
  rewrite bool_decide_eq_true_2 by exact Hs.
  rewrite upgrade_to_tls_run. cbv zeta. cbn [self calls]. rewrite Hhost.
  rewrite <- app_assoc. reflexivity.
Qed.

(** X16: the whole of a first request to an https destination, when the
    request's trace sink, if it has one, raises neither at the start nor at
    the completion of [start_tls]: the CONNECT request, the protocols set on
    the context, [start_tls] on the proxy's stream with the request's connect
    timeout, then the request itself on the new connection, whose answer is
    the result; the sink is told just before and just after [start_tls]; the
    tunnel ends connected. *)
Theorem first_request_over_tls request timeout r response raw server_hostname
    stream :
  _connected (self r) = false ->
  connect_timeout request = Ok timeout ->
  connection_handle_request w (_connection (self r))
    (connect_request (self r) request) = Ok response ->
  200 <= status response < 300 ->
  response_network_stream response = Ok raw ->
  scheme (_remote_origin (self r)) = b_ "https" ->
  decode_ascii (host (_remote_origin (self r))) = Some server_hostname ->
  let started :=
    TraceStarted (offered_context w (self r)) server_hostname timeout in
  trace_result w request "start_tls" started = Ok tt ->
  stream_start_tls w raw (offered_context w (self r)) server_hostname timeout
  = Ok stream ->
  trace_result w request "start_tls" (TraceComplete stream) = Ok tt ->
  let negotiated :=
    bool_decide (stream_ssl_object w stream = Some (Some "h2"%string)) in
  let upgraded := new_connection (self r) stream negotiated in
  handle_request w request r
  = (connection_handle_request w upgraded request,
     mkRun (set_connected true
              (set_connection upgraded (with_offered_context w (self r))))
       (calls r
        ++ [CallHandleRequest (_connection (self r))
              (connect_request (self r) request);
            CallSetAlpnProtocols (upgrade_context w (self r))
              (offered_alpn_protocols (self r))]
        ++ trace_events request "start_tls" started
        ++ [CallStartTLS raw (offered_context w (self r)) server_hostname
              timeout]
        ++ trace_events request "start_tls" (TraceComplete stream)
        ++ [CallHandleRequest upgraded request])).
Proof.
  intros Hc Ht Hresp Hstatus Hraw Hs Hhost started Hstarted Htls Hcomplete
    negotiated upgraded.
  rewrite handle_request_run, Ht, Hc, connect_run, Hresp. cbv zeta.
  apply status_refused_iff in Hstatus. rewrite Hstatus, Hraw.
  rewrite bool_decide_eq_true_2 by exact Hs.
  rewrite upgrade_to_tls_run. cbv zeta. cbn [self calls]. rewrite Hhost.
  change (set_alpn_protocols _ (offered_alpn_protocols (self r)))
    with (offered_context w (self r)).
  fold started. rewrite Hstarted, Htls, Hcomplete.
  cbn [self calls _connection set_connected set_connection].
  assert (Hneg : match stream_ssl_object w stream with
                 | Some selected => bool_decide (selected = Some "h2"%string)
                 | None => false
                 end = negotiated).
  { unfold negotiated. destruct (stream_ssl_object w stream) as [selected|].
    - destruct (decide (selected = Some "h2"%string)) as [->|Hne].
      + rewrite !bool_decide_eq_true_2 by reflexivity. reflexivity.
      + rewrite !bool_decide_eq_false_2 by congruence. reflexivity.
    - rewrite bool_decide_eq_false_2 by discriminate. reflexivity. }
  rewrite Hneg.
  f_equal. f_equal. rewrite <- !app_assoc. reflexivity.
Qed.

(** X17: a first request through a tunnel to a destination that is not
    https: after the CONNECT request the request goes out on the proxy's own
    stream, with no TLS upgrade and the SSL context untouched; the new
    connection is HTTP/2 only when http2 is enabled and http1 is not. *)
Theorem first_request_without_tls request timeout r response raw :
  _connected (self r) = false ->
  connect_timeout request = Ok timeout ->
  connection_handle_request w (_connection (self r))
    (connect_request (self r) request) = Ok response ->
  200 <= status response < 300 ->
  response_network_stream response = Ok raw ->
  scheme (_remote_origin (self r)) <> b_ "https" ->
  let plain :=
    if _http2 (self r) && negb (_http1 (self r))
    then HTTP2Connection (_remote_origin (self r)) raw (_keepalive_expiry (self r))
    else HTTP11Connection (_remote_origin (self r)) raw (_keepalive_expiry (self r)) in
  handle_request w request r
  = (connection_handle_request w plain request,
     mkRun (set_connected true (set_connection plain (self r)))
       (calls r
        ++ [CallHandleRequest (_connection (self r))
              (connect_request (self r) request);
            CallHandleRequest plain request]))
  /\ _ssl_context (set_connected true (set_connection plain (self r)))
     = _ssl_context (self r).
Proof.
  intros Hc Ht Hresp Hstatus Hraw Hs plain. split; [|reflexivity].
  rewrite handle_request_run, Ht, Hc, connect_run, Hresp. cbv zeta.
  apply status_refused_iff in Hstatus. rewrite Hstatus, Hraw.
  rewrite bool_decide_eq_false_2 by exact Hs.
  cbn [self calls _connection set_connected set_connection].
  change (new_connection (self r) raw false) with plain.
  rewrite <- app_assoc. reflexivity.
Qed.

(** X18: a tunnel the proxy has refused is left as it was, not connected
    and wrapping the proxy connection it has just closed: whatever the
    collaborators answer from then on, the next request starts with the
    CONNECT request on that same connection. *)
Theorem refused_tunnel_connects_again request timeout r response
    (reason_phrase : option bytes) (later : World) (request' : Request)
    timeout' :
  _connected (self r) = false ->
  connect_timeout request = Ok timeout ->
  connection_handle_request w (_connection (self r))
    (connect_request (self r) request) = Ok response ->
  ~ 200 <= status response < 300 ->
  response_extensions response !! "reason_phrase"%string
  = option_map ExtBytes reason_phrase ->
  connect_timeout request' = Ok timeout' ->
  let r1 := snd (handle_request w request r) in
  self r1 = self r
  /\ calls r1
     = calls r
       ++ [CallHandleRequest (_connection (self r))
             (connect_request (self r) request);
           CallClose (_connection (self r))]
  /\ exists rest,
       calls (snd (handle_request later request' r1))
       = calls r1
         ++ CallHandleRequest (_connection (self r))
              (connect_request (self r) request')
         :: rest.
Proof.
  intros Hc Ht Hresp Hstatus Hreason Ht' r1.
  assert (Hrefused : (status response <? 200) || (status response >? 299) = true).
  { destruct ((status response <? 200) || (status response >? 299)) eqn:E;
      [reflexivity|].
    apply status_refused_iff in E. contradiction. }
  assert (Hr1 : r1 = mkRun (self r)
                       (calls r
                        ++ [CallHandleRequest (_connection (self r))
                              (connect_request (self r) request);
                            CallClose (_connection (self r))])).
  { unfold r1. rewrite handle_request_run, Ht, Hc, connect_run, Hresp. cbv zeta.
    rewrite Hrefused. unfold reason_str. rewrite Hreason.
    destruct reason_phrase; reflexivity. }
  split; [rewrite Hr1; reflexivity|]. split; [rewrite Hr1; reflexivity|].
  rewrite handle_request_run, Ht'. cbv zeta.
  assert (Hc1 : _connected (self r1) = false) by (rewrite Hr1; exact Hc).
  rewrite Hc1.
  assert (Hfirst : exists rest,
             calls (snd (connect later request' timeout' r1))
             = calls r1
               ++ CallHandleRequest (_connection (self r1))
                    (connect_request (self r1) request')
               :: rest).
  { rewrite connect_run. cbv zeta.
    destruct (connection_handle_request later (_connection (self r1))
                (connect_request (self r1) request')) as [response'|e];
      [|eexists; reflexivity].
    destruct ((status response' <? 200) || (status response' >? 299)).
    { destruct (reason_str response'); eexists; reflexivity. }
    destruct (response_network_stream response') as [raw|e];
      [|eexists; reflexivity].
    destruct (bool_decide (scheme (_remote_origin (self r1)) = b_ "https"));
      [|eexists; reflexivity].
    match goal with
    | |- context [upgrade_to_tls later request' raw timeout' ?r2] =>
        destruct (upgrade_to_tls_appends later request' raw timeout' r2)
          as [l Hl];
        destruct (upgrade_to_tls later request' raw timeout' r2)
          as [[[stream negotiated]|e] r3]
    end; cbn [snd calls] in *; rewrite Hl, <- app_assoc; eexists; reflexivity. }
  destruct Hfirst as [rest Hrest].
  assert (Hself : self r1 = self r) by (rewrite Hr1; reflexivity).
  rewrite Hself in Hrest.
  destruct (connect later request' timeout' r1) as [[u|e] r2];
    cbn [snd calls] in *; rewrite Hrest.
  - rewrite <- app_assoc. cbn [app]. eexists. reflexivity.
  - eexists. reflexivity.
Qed.

(** X19: [close] calls [close] on the wrapped connection and leaves the
    tunnel as it is: a connected tunnel that has been closed sends the next
    request on the closed connection, without a new handshake. *)
Theorem closed_tunnel_stays_connected request timeout r :
  _connected (self r) = true ->
  connect_timeout request = Ok timeout ->
  let out := (close ;;; handle_request w request) r in
  out
  = (connection_handle_request w (_connection (self r)) request,
     mkRun (self r)
       (calls r ++ [CallClose (_connection (self r));
                    CallHandleRequest (_connection (self r)) request])).
Proof.
  intros Hc Ht. cbv zeta.
  unfold bind at 1. unfold close, call_close, bind, get_self, emit.
  cbn [self calls]. rewrite handle_request_run, Ht. cbn [self calls].
  rewrite Hc. rewrite <- app_assoc. reflexivity.
Qed.

End TunnelStates.

(** The reason phrase of any refusal is decoded, bytes above 127 left out. *)
Example connect_refused_403 :
  fst (TunnelHTTPConnection.handle_request MoreFixtures.forbidding_world
         Fixtures.get_request
         (Fixtures.start (Fixtures.tunnel_to Fixtures.https_origin true false None)))
  = Raise (mkExc ProxyError "403 Forbidden").
Proof. vm_compute. reflexivity. Qed.

Lemma connect_failure_keeps_tunnel_witness :
  let this := Fixtures.tunnel_to Fixtures.https_origin true false None in
  TunnelHTTPConnection._connected
    (self (snd (TunnelHTTPConnection.connect Fixtures.refusing_world
                  Fixtures.get_request None (Fixtures.start this))))
  = false.
Proof.
  intros this.
  destruct (connect_failure_keeps_tunnel Fixtures.refusing_world
              Fixtures.get_request None (Fixtures.start this)
              (mkExc ProxyError "407 Proxy Authentication Required")
              (snd (TunnelHTTPConnection.connect Fixtures.refusing_world
                      Fixtures.get_request None (Fixtures.start this)))
              eq_refl) as (Hc & _ & _).
  exact Hc.
Defined.

Lemma connected_tunnel_only_forwards_witness :
  exists k,
    calls (snd (TunnelHTTPConnectionMethods.handle_requests
                  (Fixtures.tunnel_world None)
                  [Fixtures.get_request; MoreFixtures.timed_request]
                  (Fixtures.start MoreFixtures.connected_tunnel)))
    = [] ++ map (CallHandleRequest
                   (HTTP11Connection Fixtures.https_origin (network_stream 2) None))
              (firstn k [Fixtures.get_request; MoreFixtures.timed_request]).
Proof.
  destruct (connected_tunnel_only_forwards (Fixtures.tunnel_world None)
              [Fixtures.get_request; MoreFixtures.timed_request]
              (Fixtures.start MoreFixtures.connected_tunnel) eq_refl)
    as [_ H].
  exact H.
Defined.

Lemma connect_error_propagates_witness :
  fst (TunnelHTTPConnection.handle_request MoreFixtures.unreachable_world
         Fixtures.get_request
         (Fixtures.start (Fixtures.tunnel_to Fixtures.https_origin true false None)))
  = Raise Fixtures.connect_error.
Proof.
  rewrite (connect_error_propagates MoreFixtures.unreachable_world
             Fixtures.get_request None
             (Fixtures.start (Fixtures.tunnel_to Fixtures.https_origin true false None))
             Fixtures.connect_error eq_refl eq_refl eq_refl).
  reflexivity.
Defined.

Lemma connect_without_network_stream_witness :
  fst (TunnelHTTPConnection.handle_request MoreFixtures.streamless_world
         Fixtures.get_request
         (Fixtures.start (Fixtures.tunnel_to Fixtures.https_origin true false None)))
  = Raise (mkExc KeyError "network_stream").
Proof.
  rewrite (connect_without_network_stream MoreFixtures.streamless_world
             Fixtures.get_request None
             (Fixtures.start (Fixtures.tunnel_to Fixtures.https_origin true false None))
             (Fixtures.response_with 200 [])
             eq_refl eq_refl eq_refl ltac:(simpl; lia) eq_refl).
  reflexivity.
Defined.

Lemma connect_non_ascii_host_witness :
  fst (TunnelHTTPConnection.handle_request (Fixtures.tunnel_world None)
         Fixtures.get_request
         (Fixtures.start (Fixtures.tunnel_to MoreFixtures.non_ascii_origin true false None)))
  = Raise (mkExc UnicodeDecodeError "ascii").
Proof.
  destruct (connect_non_ascii_host (Fixtures.tunnel_world None)
              Fixtures.get_request None
              (Fixtures.start
                 (Fixtures.tunnel_to MoreFixtures.non_ascii_origin true false None))
              (Fixtures.response_with 200
                 [("reason_phrase"%string, ExtBytes (b_ "Connection established"));
                  ("network_stream"%string, ExtStream (network_stream 1))])
              (network_stream 1)
              eq_refl eq_refl eq_refl ltac:(simpl; lia) eq_refl eq_refl eq_refl)
    as [Hrun _].
  rewrite Hrun. reflexivity.
Defined.

Lemma first_request_over_tls_witness :
  let this := Fixtures.tunnel_to Fixtures.https_origin true true None in
  calls (snd (TunnelHTTPConnection.handle_request
                (Fixtures.tunnel_world (Some "h2"%string))
                MoreFixtures.traced_request (Fixtures.start this)))
  = [CallHandleRequest (TunnelHTTPConnection._connection this)
       (TunnelHTTPConnection.connect_request this MoreFixtures.traced_request);
     CallSetAlpnProtocols Fixtures.some_context ["http/1.1"; "h2"]%string;
     CallTrace (ExtOther 1) "start_tls"
       (TraceStarted (mkSSLContext 0 ["http/1.1"; "h2"]%string) "s"%string
          (Some (seconds 5000)));
     CallStartTLS (network_stream 1)
       (mkSSLContext 0 ["http/1.1"; "h2"]%string) "s"%string
       (Some (seconds 5000));
     CallTrace (ExtOther 1) "start_tls" (TraceComplete (network_stream 2));
     CallHandleRequest
       (HTTP2Connection Fixtures.https_origin (network_stream 2) None)
       MoreFixtures.traced_request].
Proof.
  intros this.
  rewrite (first_request_over_tls (Fixtures.tunnel_world (Some "h2"%string))
             MoreFixtures.traced_request (Some (seconds 5000))
             (Fixtures.start this)
             (Fixtures.response_with 200
                [("reason_phrase"%string, ExtBytes (b_ "Connection established"));
                 ("network_stream"%string, ExtStream (network_stream 1))])
             (network_stream 1) "s"%string (network_stream 2)
             eq_refl eq_refl eq_refl ltac:(simpl; lia) eq_refl eq_refl eq_refl
             eq_refl eq_refl eq_refl).
  reflexivity.
Defined.

(** A sink that raises at the start keeps [start_tls] from being called. *)
Example raising_sink_stops_upgrade :
  let this := Fixtures.tunnel_to Fixtures.https_origin true true None in
  TunnelHTTPConnection.handle_request MoreFixtures.raising_sink_world
    MoreFixtures.traced_request (Fixtures.start this)
  = (Raise (mkExc RuntimeError "sink"),
     mkRun this
       [CallHandleRequest (TunnelHTTPConnection._connection this)
          (TunnelHTTPConnection.connect_request this MoreFixtures.traced_request);
        CallSetAlpnProtocols Fixtures.some_context ["http/1.1"; "h2"]%string;
        CallTrace (ExtOther 1) "start_tls"
          (TraceStarted (mkSSLContext 0 ["http/1.1"; "h2"]%string) "s"%string
             (Some (seconds 5000)))]).
Proof. vm_compute. reflexivity. Qed.

Lemma first_request_without_tls_witness :
  let this := Fixtures.tunnel_to Fixtures.http_origin true true None in
  calls (snd (TunnelHTTPConnection.handle_request
                (Fixtures.tunnel_world (Some "h2"%string))
                Fixtures.get_request (Fixtures.start this)))
  = [CallHandleRequest (TunnelHTTPConnection._connection this)
       (TunnelHTTPConnection.connect_request this Fixtures.get_request);
     CallHandleRequest
       (HTTP11Connection Fixtures.http_origin (network_stream 1) None)
       Fixtures.get_request].
Proof.
  intros this.
  destruct (first_request_without_tls (Fixtures.tunnel_world (Some "h2"%string))
              Fixtures.get_request None (Fixtures.start this)
              (Fixtures.response_with 200
                 [("reason_phrase"%string, ExtBytes (b_ "Connection established"));
                  ("network_stream"%string, ExtStream (network_stream 1))])
              (network_stream 1)
              eq_refl eq_refl eq_refl ltac:(simpl; lia) eq_refl
              ltac:(discriminate)) as [Hrun _].
  rewrite Hrun. reflexivity.
Defined.

Lemma refused_tunnel_connects_again_witness :
  let this := Fixtures.tunnel_to Fixtures.https_origin true false None in
  let r1 :=
    snd (TunnelHTTPConnection.handle_request Fixtures.refusing_world
           Fixtures.get_request (Fixtures.start this)) in
  self r1 = this.
Proof.
  intros this r1.
  destruct (refused_tunnel_connects_again Fixtures.refusing_world
              Fixtures.get_request None (Fixtures.start this)
              (Fixtures.response_with 407
                 [("reason_phrase"%string,
                   ExtBytes (b_ "Proxy Authentication Required"))])
              (Some (b_ "Proxy Authentication Required"))
              (Fixtures.tunnel_world None) MoreFixtures.timed_request
              (Some (seconds 5000))
              eq_refl eq_refl eq_refl ltac:(simpl; lia) eq_refl eq_refl)
    as [Hself _].
  exact Hself.
Defined.

(** A tunnel refused at first is opened by the next request when the proxy
    then accepts. *)
Example refused_then_accepted :
  let this := Fixtures.tunnel_to Fixtures.http_origin true false None in
  let r1 :=
    snd (TunnelHTTPConnection.handle_request Fixtures.refusing_world
           Fixtures.get_request (Fixtures.start this)) in
  calls (snd (TunnelHTTPConnection.handle_request (Fixtures.tunnel_world None)
                Fixtures.get_request r1))
  = [CallHandleRequest (TunnelHTTPConnection._connection this)
       (TunnelHTTPConnection.connect_request this Fixtures.get_request);
     CallClose (TunnelHTTPConnection._connection this);
     CallHandleRequest (TunnelHTTPConnection._connection this)
       (TunnelHTTPConnection.connect_request this Fixtures.get_request);
     CallHandleRequest
       (HTTP11Connection Fixtures.http_origin (network_stream 1) None)
       Fixtures.get_request].
Proof. vm_compute. reflexivity. Qed.

Lemma closed_tunnel_stays_connected_witness :
  calls (snd ((TunnelHTTPConnectionMethods.close ;;;
               TunnelHTTPConnection.handle_request (Fixtures.tunnel_world None)
                 Fixtures.get_request)
                (Fixtures.start MoreFixtures.connected_tunnel)))
  = [CallClose (HTTP11Connection Fixtures.https_origin (network_stream 2) None);
     CallHandleRequest
       (HTTP11Connection Fixtures.https_origin (network_stream 2) None)
       Fixtures.get_request].
Proof.
  rewrite (closed_tunnel_stays_connected (Fixtures.tunnel_world None)
             Fixtures.get_request None
             (Fixtures.start MoreFixtures.connected_tunnel) eq_refl eq_refl).
  reflexivity.
Defined.

(** ** More on the clean-up and request methods *)

Section CleanupLaws.

Import Interfaces InterfacesMethods.

Lemma cleanup_twice (c : Connection) (exc exc' : Exc) :
  fst (AsyncConnectionInterface._cleanup
         (fst (AsyncConnectionInterface._cleanup c exc)) exc')
  = fst (AsyncConnectionInterface._cleanup c exc).
Proof.
  revert c. fix IH 1.
  intros [id failed [| |sub]]; try reflexivity.
  specialize (IH sub). cbn [AsyncConnectionInterface._cleanup].
  destruct (AsyncConnectionInterface._cleanup sub exc) as [sub1 e1].
  cbn [fst] in *. cbn [AsyncConnectionInterface._cleanup].
  destruct (AsyncConnectionInterface._cleanup sub1 exc') as [sub2 e2].
  cbn [fst] in *. rewrite IH. reflexivity.
Qed.

Lemma last_filter_none (f : RequestStatus -> bool) (l : list RequestStatus) :
  existsb f l = false -> last (List.filter f l) = None.
Proof.
  intros H. replace (List.filter f l) with (@nil RequestStatus); [reflexivity|].
  symmetry. induction l as [|x l IH]; [reflexivity|].
  simpl in *. apply orb_false_iff in H as [Hx Hl]. rewrite Hx. apply IH, Hl.
Qed.

Lemma last_filter_some (f : RequestStatus -> bool) (l : list RequestStatus) :
  existsb f l = true -> exists status, last (List.filter f l) = Some status.
Proof.
  intros H. apply existsb_exists in H as (x & Hin & Hx).
  assert (Hne : List.filter f l <> []).
  { intros E. assert (Hx' : In x (List.filter f l)) by (apply filter_In; auto).
    rewrite E in Hx'. contradiction. }
  destruct (last (List.filter f l)) as [status|] eqn:E; [eauto|].
  apply last_None in E. contradiction.
Qed.

End CleanupLaws.

(** X20: the recursive clean-up of a connection hands back the exception it
    was given, whatever the nesting, and running it again changes nothing
    more. *)
Theorem connection_cleanup_idempotent (c : Interfaces.Connection) (exc exc' : Exc) :
  snd (Interfaces.AsyncConnectionInterface._cleanup c exc) = exc
  /\ Interfaces.AsyncConnectionInterface._cleanup
       (fst (Interfaces.AsyncConnectionInterface._cleanup c exc)) exc'
     = (fst (Interfaces.AsyncConnectionInterface._cleanup c exc), exc').
Proof.
  split; [apply connection_cleanup_returns_exc|].
  rewrite (surjective_pairing (Interfaces.AsyncConnectionInterface._cleanup _ exc')).
  rewrite cleanup_twice, connection_cleanup_returns_exc. reflexivity.
Qed.

(** X21: the clean-up keeps the chain of nested connections and changes one
    flag at most: when the innermost connection has [_connection] set to
    [None] its [_connect_failed] becomes true; when the innermost connection
    has no [_connection] attribute nothing changes at all. *)
Theorem connection_cleanup_marks_last (c : Interfaces.Connection) (exc : Exc) :
  let c' := fst (Interfaces.AsyncConnectionInterface._cleanup c exc) in
  map fst (InterfacesMethods.chain c') = map fst (InterfacesMethods.chain c)
  /\ InterfacesMethods.ends_with_none c' = InterfacesMethods.ends_with_none c
  /\ map snd (InterfacesMethods.chain c')
     = if InterfacesMethods.ends_with_none c
       then removelast (map snd (InterfacesMethods.chain c)) ++ [true]
       else map snd (InterfacesMethods.chain c).
Proof.
  cbv zeta. revert c. fix IH 1.
  intros [id failed [| |sub]].
  - repeat split.
  - repeat split.
  - specialize (IH sub). cbn [Interfaces.AsyncConnectionInterface._cleanup].
    destruct (Interfaces.AsyncConnectionInterface._cleanup sub exc) as [sub' exc'].
    cbn [fst] in *. destruct IH as (Hids & Hend & Hflags).
    cbn [InterfacesMethods.chain InterfacesMethods.ends_with_none map fst snd].
    rewrite Hids, Hend, Hflags. repeat split.
    destruct (InterfacesMethods.ends_with_none sub); [|reflexivity].
    destruct sub as [id2 failed2 sub2]. reflexivity.
Qed.

(** X22: with the names interfaces.py binds as it stands, the clean-up of a
    request never changes the pool: no status leaves the queue and
    [response_closed] is not called.  It returns when no exception is being
    handled, raises that exception again when the request has no status in
    the queue, and raises [NameError] when it has one. *)
Theorem request_cleanup_never_changes_pool (pool : Interfaces.Pool)
    (request : nat) (exc_info : option Exc) :
  Interfaces.AsyncRequestInterface._cleanup Interfaces.interfaces_globals
    pool request exc_info
  = (match exc_info with
     | None => Ok tt
     | Some exc =>
         if existsb (InterfacesMethods.status_for request)
                    (Interfaces._requests pool)
         then Raise (mkExc NameError "AsyncShieldCancellation")
         else Raise exc
     end, pool).
Proof.
  destruct exc_info as [exc|]; [|reflexivity].
  unfold Interfaces.AsyncRequestInterface._cleanup.
  destruct (existsb (InterfacesMethods.status_for request)
                    (Interfaces._requests pool)) eqn:E.
  - apply last_filter_some in E as [status Hs].
    unfold InterfacesMethods.status_for in Hs. rewrite Hs. reflexivity.
  - apply last_filter_none in E.
    unfold InterfacesMethods.status_for in E. rewrite E. reflexivity.
Qed.

Section RequestMethods.

Import Interfaces InterfacesMethods.

Variable c : Collaborators.

Lemma shielded_unbound {A} (body : State -> Result A * State) (s : State) :
  shielded interfaces_globals body s
  = (Raise (mkExc NameError "AsyncShieldCancellation"), s).
Proof. reflexivity. Qed.

Lemma shielded_bound {A} globals (body : State -> Result A * State) (s : State) :
  globals !! "AsyncShieldCancellation"%string = Some ShieldClass ->
  shielded globals body s = body s.
Proof. intros H. unfold shielded, load_global. rewrite H. reflexivity. Qed.

(** In interfaces.py as it stands, sending a request ends in [NameError]
    once [handle_async_request] has been called, whatever it answered. *)
Lemma send_request_unbound handling request_id method url headers content
    extensions (s : State) :
  let request :=
    Request_new method url
      (include_request_headers c (or_empty headers) url content) content
      (match extensions with Some e => e | None => ∅ end) in
  send_request interfaces_globals c handling request_id method url headers
    content extensions s
  = (Raise (mkExc NameError "AsyncShieldCancellation"),
     mkState (snd (handle_async_request c (pool s) request_id request))
       (made s ++ [CallHandleAsyncRequest request_id request])).
Proof.
  cbv zeta. unfold send_request, try_finally, call_handle_async_request.
  unfold enforce_bytes. change (enforce_headers headers) with (or_empty headers).
  destruct (handle_async_request c (pool s) request_id _) as [outcome pool'].
  rewrite shielded_unbound. reflexivity.
Qed.

(** With the shield bound and no exception being handled by the caller, a
    request that was answered comes back from the clean-up untouched. *)
Lemma send_request_answered globals request_id method url headers content
    extensions (s : State) response pool' :
  globals !! "AsyncShieldCancellation"%string = Some ShieldClass ->
  let request :=
    Request_new method url
      (include_request_headers c (or_empty headers) url content) content
      (match extensions with Some e => e | None => ∅ end) in
  handle_async_request c (pool s) request_id request = (Ok response, pool') ->
  send_request globals c None request_id method url headers content extensions s
  = (Ok response,
     mkState pool' (made s ++ [CallHandleAsyncRequest request_id request])).
Proof.
  intros Hshield request Hanswer.
  unfold send_request, try_finally, call_handle_async_request.
  unfold enforce_bytes. change (enforce_headers headers) with (or_empty headers).
  fold request. rewrite Hanswer.
  rewrite shielded_bound by exact Hshield.
  reflexivity.
Qed.

(** X23: in interfaces.py as it stands, [request] never returns a response:
    after the one call of [handle_async_request], whatever its outcome, it
    raises [NameError]; the response is neither read nor closed. *)
Theorem request_raises_NameError handling request_id method url headers content
    extensions (s : State) :
  let sent :=
    Request_new method url
      (include_request_headers c (or_empty headers) url content) content
      (match extensions with Some e => e | None => ∅ end) in
  let out :=
    request interfaces_globals c handling request_id method url headers content
      extensions s in
  fst out = Raise (mkExc NameError "AsyncShieldCancellation")
  /\ made (snd out) = made s ++ [CallHandleAsyncRequest request_id sent].
Proof.
  cbv zeta. unfold request. rewrite send_request_unbound. split; reflexivity.
Qed.

(** X24: likewise [stream] raises [NameError] before the block of the
    [async with] statement is entered: the outcome does not depend on the
    block, and the response is not closed. *)
Theorem stream_raises_NameError {A} handling request_id method url headers
    content extensions (block : Response -> State -> Result A * State)
    (s : State) :
  let sent :=
    Request_new method url
      (include_request_headers c (or_empty headers) url content) content
      (match extensions with Some e => e | None => ∅ end) in
  let out :=
    stream interfaces_globals c handling request_id method url headers content
      extensions block s in
  fst out = Raise (mkExc NameError "AsyncShieldCancellation")
  /\ made (snd out) = made s ++ [CallHandleAsyncRequest request_id sent].
Proof.
  cbv zeta. unfold stream. rewrite send_request_unbound. split; reflexivity.
Qed.

(** X25: were the shield class bound in the module, a request that got a
    response would read it and then close it, once, whether or not the
    read succeeded; the result is the response, or the exception of
    [aclose], or else that of [aread]. *)
Theorem request_closes_response globals request_id method url headers content
    extensions (s : State) response pool' :
  globals !! "AsyncShieldCancellation"%string = Some ShieldClass ->
  let sent :=
    Request_new method url
      (include_request_headers c (or_empty headers) url content) content
      (match extensions with Some e => e | None => ∅ end) in
  handle_async_request c (pool s) request_id sent = (Ok response, pool') ->
  request globals c None request_id method url headers content extensions s
  = (match aclose c response, aread c response with
     | Raise e, _ => Raise e
     | Ok _, Raise e => Raise e
     | Ok _, Ok _ => Ok response
     end,
     mkState pool'
       (made s ++ [CallHandleAsyncRequest request_id sent;
                   CallARead response; CallAClose response])).
Proof.
  intros Hshield sent Hanswer. unfold request.
  rewrite (send_request_answered globals request_id method url headers content
             extensions s response pool' Hshield Hanswer).
  fold sent. unfold try_finally, call_aread.
  rewrite shielded_bound by exact Hshield.
  unfold call_aclose. cbn [pool made]. rewrite <- !app_assoc. cbn [app].
  destruct (aclose c response) as [u|e]; destruct (aread c response) as [v|e'];
    reflexivity.
Qed.

(** X26: were the shield class bound in the module, [stream] would close
    the response once after the block, whatever the block did: its calls
    come first, [aclose] is the last call, and the outcome is the block's
    unless [aclose] raises. *)
Theorem stream_closes_response {A} globals request_id method url headers content
    extensions (block : Response -> State -> Result A * State)
    (s : State) response pool' :
  globals !! "AsyncShieldCancellation"%string = Some ShieldClass ->
  let sent :=
    Request_new method url
      (include_request_headers c (or_empty headers) url content) content
      (match extensions with Some e => e | None => ∅ end) in
  handle_async_request c (pool s) request_id sent = (Ok response, pool') ->
  let entered :=
    mkState pool' (made s ++ [CallHandleAsyncRequest request_id sent]) in
  stream globals c None request_id method url headers content extensions block s
  = (match aclose c response with
     | Raise e => Raise e
     | Ok _ => fst (block response entered)
     end,
     mkState (pool (snd (block response entered)))
       (made (snd (block response entered)) ++ [CallAClose response])).
Proof.
  intros Hshield sent Hanswer entered. unfold stream.
  rewrite (send_request_answered globals request_id method url headers content
             extensions s response pool' Hshield Hanswer).
  fold sent. fold entered. unfold try_finally.
  destruct (block response entered) as [outcome s2].
  rewrite shielded_bound by exact Hshield.
  unfold call_aclose. cbn [fst snd].
  destruct (aclose c response) as [u|e]; reflexivity.
Qed.

End RequestMethods.

Lemma request_closes_response_witness :
  InterfacesMethods.request Fixtures.globals_with_shield
    InterfaceFixtures.answering None 7 (b_ "GET") InterfaceFixtures.get_url
    None None None InterfaceFixtures.empty_state
  = (Raise (mkExc ReadError "peer closed connection"),
     InterfacesMethods.mkState (Interfaces.mkPool [] [])
       [InterfacesMethods.CallHandleAsyncRequest 7
          (Request_new (b_ "GET") InterfaceFixtures.get_url [] None ∅);
        InterfacesMethods.CallARead InterfaceFixtures.ok_response;
        InterfacesMethods.CallAClose InterfaceFixtures.ok_response]).
Proof.
  rewrite (request_closes_response InterfaceFixtures.answering
             Fixtures.globals_with_shield 7 (b_ "GET") InterfaceFixtures.get_url
             None None None InterfaceFixtures.empty_state
             InterfaceFixtures.ok_response (Interfaces.mkPool [] [])
             eq_refl eq_refl).
  reflexivity.
Defined.

Lemma stream_closes_response_witness :
  InterfacesMethods.stream Fixtures.globals_with_shield
    InterfaceFixtures.answering None 7 (b_ "GET") InterfaceFixtures.get_url
    None None None InterfaceFixtures.failing_block InterfaceFixtures.empty_state
  = (Raise (mkExc RuntimeError "boom"),
     InterfacesMethods.mkState (Interfaces.mkPool [] [])
       [InterfacesMethods.CallHandleAsyncRequest 7
          (Request_new (b_ "GET") InterfaceFixtures.get_url [] None ∅);
        InterfacesMethods.CallAClose InterfaceFixtures.ok_response]).
Proof.
  rewrite (stream_closes_response InterfaceFixtures.answering
             Fixtures.globals_with_shield 7 (b_ "GET") InterfaceFixtures.get_url
             None None None InterfaceFixtures.failing_block
             InterfaceFixtures.empty_state
             InterfaceFixtures.ok_response (Interfaces.mkPool [] [])
             eq_refl eq_refl).
  reflexivity.
Defined.
